(** * SportsBot: the odds query and game aggregation handlers

    A shallow embedding of
    [sportsbook-ev-analyzer/services/api/app/main.py] (the two handlers
    [get_odds] and [get_upcoming_games]) together with the parameter
    declarations that the web framework validates before a handler runs.

    - Instants are integers (microseconds since the epoch), the resolution
      of a Python [datetime].
    - Python [float] is a binary64 number: [PrimFloat.float].
    - A Python [dict] whose iteration order matters is an association list
      in insertion order ([Dict]).
    - The document store is external: a handler is a program that may issue
      store queries ([Prog]); it is run against an arbitrary gateway, and
      the run records every query that was issued.
    - The time read from the clock ([datetime.utcnow()]) is the argument
      [now] of a handler.
    - To speak of state shared between requests, the handlers are also
      given on a heap of mutable objects that outlasts a request ([Req]). *)

From Stdlib Require Import ZArith List String Bool Lia Floats Sorted DecimalString.
Import ListNotations.

Local Open Scope string_scope.
Local Open Scope list_scope.
Local Open Scope Z_scope.

(** ** Data model *)

Definition Instant := Z.

(** The shapes a timestamp-valued field can take.  [Datetime] is an object
    with an [isoformat] method, [Stamp] one that only has [timestamp()].
    The strings the handlers produce are kept symbolically: [IsoText t] is
    the text [t.isoformat()], [LocalIsoText t] the text
    [datetime.fromtimestamp(t).isoformat()].  The instant of a [Stamp] is
    one that [fromtimestamp] accepts; on a value outside the range of a
    [datetime] the conversion raises, which is outside this model. *)
Inductive TimeField : Type :=
| Datetime (t : Instant)
| Stamp (t : Instant)
| IsoText (t : Instant)
| LocalIsoText (t : Instant)
| Text (s : string)
| Null.

(** The instant a field value denotes, when it denotes one. *)
Definition instant (v : TimeField) : option Instant :=
  match v with
  | Datetime t | Stamp t | IsoText t | LocalIsoText t => Some t
  | Text _ | Null => None
  end.

(** The dictionary of one odds row ([models.py], [OddsResponse]); [id] is
    absent until a handler adds it, [ingested_at] is not part of the
    declared model and may be absent.  A row carries every other field of
    the declared model, with a value of the declared type: the subscripts
    [data['game_id']], ... of [get_upcoming_games] raise [KeyError] on a row
    that lacks one, and such rows are outside this model. *)
Record OddsRecord : Type := mkOdds {
  id : option string;
  game_id : string;
  sport : string;
  home_team : string;
  away_team : string;
  commence_time : TimeField;
  bookmaker : string;
  team : string;
  point_spread : float;
  odds : Z;
  ev_percentage : option float;
  is_positive_ev : bool;
  last_update : TimeField;
  ingested_at : option TimeField
}.

(** A document snapshot: the store-assigned identifier and the contents. *)
Record Document : Type := mkDoc {
  doc_id : string;
  to_dict : OddsRecord
}.

(** ** The store gateway *)

Inductive Op : Type := OpLt | OpLe | OpEq | OpGe | OpGt.

Record FieldFilter : Type := mkFilter {
  ff_field : string;
  ff_op : Op;
  ff_value : Instant
}.

Inductive Direction : Type := ASCENDING | DESCENDING.

Record Query : Type := mkQuery {
  q_collection : string;
  q_filters : list FieldFilter;
  q_order : option (string * Direction);
  q_limit : option Z
}.

Definition collection (name : string) : Query :=
  {| q_collection := name; q_filters := []; q_order := None; q_limit := None |}.

Definition where_ (q : Query) (f : FieldFilter) : Query :=
  {| q_collection := q_collection q;
     q_filters := q_filters q ++ [f];
     q_order := q_order q;
     q_limit := q_limit q |}.

Definition order_by (q : Query) (field : string) (direction : Direction) : Query :=
  {| q_collection := q_collection q;
     q_filters := q_filters q;
     q_order := Some (field, direction);
     q_limit := q_limit q |}.

Definition limit_ (q : Query) (n : Z) : Query :=
  {| q_collection := q_collection q;
     q_filters := q_filters q;
     q_order := q_order q;
     q_limit := Some n |}.

(** What a filter means on a row: the named field must hold an instant that
    compares as asked. *)
Definition field_instant (field : string) (r : OddsRecord) : option Instant :=
  if (field =? "commence_time")%string then instant (commence_time r)
  else if (field =? "last_update")%string then instant (last_update r)
  else if (field =? "ingested_at")%string then
    match ingested_at r with Some v => instant v | None => None end
  else None.

Definition compare_op (op : Op) (x y : Instant) : bool :=
  match op with
  | OpLt => x <? y
  | OpLe => x <=? y
  | OpEq => x =? y
  | OpGe => x >=? y
  | OpGt => x >? y
  end.

Definition satisfies (f : FieldFilter) (r : OddsRecord) : bool :=
  match field_instant (ff_field f) r with
  | Some t => compare_op (ff_op f) t (ff_value f)
  | None => false
  end.

Definition row_matches (q : Query) (d : Document) : bool :=
  forallb (fun f => satisfies f (to_dict d)) (q_filters q).

(** The answer of the store to one query: the rows, or the exception that
    [stream()] raised; [str] is its text. *)
Inductive Exn : Type :=
| StoreError (msg : string)
| KeyError (key : string).

Definition str (e : Exn) : string :=
  match e with
  | StoreError msg => msg
  | KeyError key => String.append "'" (String.append key "'")
  end.

Definition Response : Type := (Exn + list Document)%type.

Definition Gateway : Type := Query -> Response.

(** ** Handler programs *)

(** A handler ends by returning a value, by raising [HTTPException], with an
    exception nobody caught, or is never entered because the declared
    parameter constraints rejected the request; before that it may stream
    queries from the store.  No [try] block of the program encloses a
    [raise HTTPException], so that outcome is terminal. *)
Inductive Prog (A : Type) : Type :=
| Ret (a : A)
| Throw (e : Exn)
| HTTPException (status_code : Z) (detail : string)
| RequestValidationError
| Stream (q : Query) (k : Response -> Prog A).

Arguments Ret {A} a.
Arguments Throw {A} e.
Arguments HTTPException {A} status_code detail.
Arguments RequestValidationError {A}.
Arguments Stream {A} q k.

Fixpoint bind {A B : Type} (p : Prog A) (f : A -> Prog B) : Prog B :=
  match p with
  | Ret a => f a
  | Throw e => Throw e
  | HTTPException s d => HTTPException s d
  | RequestValidationError => RequestValidationError
  | Stream q k => Stream q (fun r => bind (k r) f)
  end.

(** [try: p  except Exception as e: handler e] *)
Fixpoint try_except {A : Type} (p : Prog A) (handler : Exn -> Prog A) : Prog A :=
  match p with
  | Throw e => handler e
  | Stream q k => Stream q (fun r => try_except (k r) handler)
  | other => other
  end.

(** [list(query.stream())]: the rows, or the store's exception. *)
Definition stream (q : Query) : Prog (list Document) :=
  Stream q (fun r => match r with inl e => Throw e | inr docs => Ret docs end).

Notation "x <- p ;; k" := (bind p (fun x => k))
  (at level 61, p at next level, right associativity).

Inductive Outcome (A : Type) : Type :=
| Returned (a : A)
| Raised (e : Exn)
| Responded (status_code : Z) (detail : string)
| Rejected.

Arguments Returned {A} a.
Arguments Raised {A} e.
Arguments Responded {A} status_code detail.
Arguments Rejected {A}.

(** Running a program against a gateway: the outcome and the queries issued,
    in order. *)
Fixpoint run {A : Type} (db : Gateway) (p : Prog A) : Outcome A * list Query :=
  match p with
  | Ret a => (Returned a, [])
  | Throw e => (Raised e, [])
  | HTTPException s d => (Responded s d, [])
  | RequestValidationError => (Rejected, [])
  | Stream q k => let (o, tr) := run db (k (db q)) in (o, q :: tr)
  end.

Definition outcome {A : Type} (db : Gateway) (p : Prog A) : Outcome A :=
  fst (run db p).

Definition issued {A : Type} (db : Gateway) (p : Prog A) : list Query :=
  snd (run db p).

(** ** Declared query parameters *)

(** [Query(default, ge=..., le=...)] *)
Record QueryParam : Type := mkParam {
  qp_default : Z;
  qp_ge : option Z;
  qp_le : option Z
}.

(** The value a handler receives for a parameter: the default when the
    request omits it, the given value when it meets the declared bounds,
    nothing (a validation error) otherwise. *)
Definition resolve (p : QueryParam) (raw : option Z) : option Z :=
  match raw with
  | None => Some (qp_default p)
  | Some v =>
      let ge_ok := match qp_ge p with Some lo => lo <=? v | None => true end in
      let le_ok := match qp_le p with Some hi => v <=? hi | None => true end in
      if ge_ok && le_ok then Some v else None
  end.

Definition hours_ahead_param : QueryParam :=
  {| qp_default := 48; qp_ge := Some 1; qp_le := Some 168 |}.

Definition limit_param : QueryParam :=
  {| qp_default := 100; qp_ge := None; qp_le := Some 500 |}.

(** ** [get_odds] *)

(** [timedelta(hours=h)] in microseconds. *)
Definition timedelta_hours (h : Z) : Z := h * 3600 * 1000000.

(** The truth value of an optional string: [None] and the empty string are
    false. *)
Definition truthy (s : option string) : bool :=
  match s with
  | Some s => negb (s =? "")%string
  | None => false
  end.

(** The two-branch timestamp conversion both handlers apply. *)
Definition to_iso (v : TimeField) : TimeField :=
  match v with
  | Datetime t => IsoText t
  | Stamp t => LocalIsoText t
  | other => other
  end.

Definition set_id (doc_id : string) (r : OddsRecord) : OddsRecord :=
  mkOdds (Some doc_id) (game_id r) (sport r) (home_team r) (away_team r)
         (commence_time r) (bookmaker r) (team r) (point_spread r) (odds r)
         (ev_percentage r) (is_positive_ev r) (last_update r) (ingested_at r).

(** The loop over ['commence_time', 'last_update', 'ingested_at']. *)
Definition convert_timestamps (r : OddsRecord) : OddsRecord :=
  mkOdds (id r) (game_id r) (sport r) (home_team r) (away_team r)
         (to_iso (commence_time r)) (bookmaker r) (team r) (point_spread r)
         (odds r) (ev_percentage r) (is_positive_ev r)
         (to_iso (last_update r)) (option_map to_iso (ingested_at r)).

Definition render (doc : Document) : OddsRecord :=
  convert_timestamps (set_id (doc_id doc) (to_dict doc)).

Section OddsLoop.

Variables (bookmaker_ team_ : option string) (min_ev : option float).
Variable limit : Z.

Definition skip_bookmaker (data : OddsRecord) : bool :=
  match bookmaker_ with
  | Some b => truthy bookmaker_ && negb (bookmaker data =? b)%string
  | None => false
  end.

Definition skip_team (data : OddsRecord) : bool :=
  match team_ with
  | Some t => truthy team_ && negb (team data =? t)%string
  | None => false
  end.

Definition skip_ev (data : OddsRecord) : bool :=
  match min_ev with
  | Some m =>
      match ev_percentage data with
      | None => true
      | Some e => PrimFloat.ltb e m
      end
  | None => false
  end.

(** The body of [for doc in docs] with its three [continue]s and its
    [break]. *)
Fixpoint odds_loop (docs : list Document) (results : list OddsRecord)
  : list OddsRecord :=
  match docs with
  | [] => results
  | doc :: rest =>
      let data := to_dict doc in
      if skip_bookmaker data then odds_loop rest results
      else if skip_team data then odds_loop rest results
      else if skip_ev data then odds_loop rest results
      else
        let results := results ++ [render doc] in
        if Z.of_nat (List.length results) >=? limit then results
        else odds_loop rest results
  end.

End OddsLoop.

Definition odds_query (now : Instant) (hours_ahead limit : Z) : Query :=
  let max_time := now + timedelta_hours hours_ahead in
  let query := collection "odds" in
  let query := where_ query (mkFilter "commence_time" OpGt now) in
  let query := where_ query (mkFilter "commence_time" OpLe max_time) in
  let query := order_by query "commence_time" ASCENDING in
  limit_ query (limit * 5).

Definition query_failed : string :=
  "Query failed. You may need to create a Firestore index. Error: ".

Definition get_odds (now : Instant) (bookmaker_ team_ : option string)
    (min_ev : option float) (hours_ahead limit : Z) : Prog (list OddsRecord) :=
  let query := odds_query now hours_ahead limit in
  docs <- try_except (stream query)
            (fun e => HTTPException 500 (String.append query_failed (str e))) ;;
  Ret (odds_loop bookmaker_ team_ min_ev limit docs []).

(** The request as the framework sees it: every parameter may be omitted. *)
Record OddsRequest : Type := mkOddsRequest {
  rq_bookmaker : option string;
  rq_team : option string;
  rq_min_ev : option float;
  rq_hours_ahead : option Z;
  rq_limit : option Z
}.

(** [GET /api/odds]: the declared parameters are resolved first, the handler
    runs only when all of them are valid. *)
Definition api_odds (now : Instant) (rq : OddsRequest) : Prog (list OddsRecord) :=
  match resolve hours_ahead_param (rq_hours_ahead rq),
        resolve limit_param (rq_limit rq) with
  | Some hours_ahead, Some limit =>
      get_odds now (rq_bookmaker rq) (rq_team rq) (rq_min_ev rq) hours_ahead limit
  | _, _ => RequestValidationError
  end.

(** ** Insertion-ordered dictionaries with string keys *)

Module Dict.
Section Ops.

Context {V : Type}.

Definition t : Type := list (string * V).

Definition empty : t := [].

(** [k in d] *)
Fixpoint contains (k : string) (d : t) : bool :=
  match d with
  | [] => false
  | (k', _) :: d' => if (k' =? k)%string then true else contains k d'
  end.

(** [d[k]], when the key is there *)
Fixpoint get (k : string) (d : t) : option V :=
  match d with
  | [] => None
  | (k', v) :: d' => if (k' =? k)%string then Some v else get k d'
  end.

(** [d[k] = v]: an existing key keeps its place, a new one goes last. *)
Fixpoint set (k : string) (v : V) (d : t) : t :=
  match d with
  | [] => [(k, v)]
  | (k', v') :: d' =>
      if (k' =? k)%string then (k', v) :: d' else (k', v') :: set k v d'
  end.

Definition keys (d : t) : list string := map fst d.

Definition values (d : t) : list V := map snd d.

End Ops.
Arguments t : clear implicits.
End Dict.

(** ** [get_upcoming_games] *)

(** One [{team, point_spread, odds}] entry of a bookmaker's list. *)
Record Line : Type := mkLine {
  line_team : string;
  line_point_spread : float;
  line_odds : Z
}.

Record GameView : Type := mkGame {
  gv_game_id : string;
  gv_home_team : string;
  gv_away_team : string;
  gv_commence_time : TimeField;
  gv_bookmakers : Dict.t (list Line)
}.

Definition line_of (data : OddsRecord) : Line :=
  {| line_team := team data;
     line_point_spread := point_spread data;
     line_odds := odds data |}.

Definition new_game (data : OddsRecord) : GameView :=
  {| gv_game_id := game_id data;
     gv_home_team := home_team data;
     gv_away_team := away_team data;
     gv_commence_time := to_iso (commence_time data);
     gv_bookmakers := Dict.empty |}.

Definition with_bookmakers (g : GameView) (b : Dict.t (list Line)) : GameView :=
  {| gv_game_id := gv_game_id g;
     gv_home_team := gv_home_team g;
     gv_away_team := gv_away_team g;
     gv_commence_time := gv_commence_time g;
     gv_bookmakers := b |}.

(** [d[k]] as an expression: a missing key raises. *)
Definition subscript {V : Type} (d : Dict.t V) (k : string) : Exn + V :=
  match Dict.get k d with
  | Some v => inr v
  | None => inl (KeyError k)
  end.

(** The body of [for doc in docs] of the aggregation. *)
Definition games_step (games_dict : Dict.t GameView) (doc : Document)
  : Exn + Dict.t GameView :=
  let data := to_dict doc in
  let game_id_ := game_id data in
  let games_dict :=
    if negb (Dict.contains game_id_ games_dict)
    then Dict.set game_id_ (new_game data) games_dict
    else games_dict in
  let bookmaker_ := bookmaker data in
  match subscript games_dict game_id_ with
  | inl e => inl e
  | inr game =>
      let bookmakers :=
        if negb (Dict.contains bookmaker_ (gv_bookmakers game))
        then Dict.set bookmaker_ [] (gv_bookmakers game)
        else gv_bookmakers game in
      match subscript bookmakers bookmaker_ with
      | inl e => inl e
      | inr entries =>
          let bookmakers :=
            Dict.set bookmaker_ (entries ++ [line_of data]) bookmakers in
          inr (Dict.set game_id_ (with_bookmakers game bookmakers) games_dict)
      end
  end.

Fixpoint games_loop (docs : list Document) (games_dict : Dict.t GameView)
  : Exn + Dict.t GameView :=
  match docs with
  | [] => inr games_dict
  | doc :: rest =>
      match games_step games_dict doc with
      | inl e => inl e
      | inr games_dict => games_loop rest games_dict
      end
  end.

Definition games_query (now : Instant) (hours_ahead : Z) : Query :=
  let max_time := now + timedelta_hours hours_ahead in
  let query := collection "odds" in
  let query := where_ query (mkFilter "commence_time" OpGt now) in
  let query := where_ query (mkFilter "commence_time" OpLe max_time) in
  let query := order_by query "commence_time" ASCENDING in
  limit_ query 500.

(** The stream is consumed by the loop, outside any [try]: an exception of
    the store leaves the handler. *)
Definition get_upcoming_games (now : Instant) (hours_ahead : Z)
  : Prog (list GameView) :=
  let query := games_query now hours_ahead in
  docs <- stream query ;;
  match games_loop docs Dict.empty with
  | inl e => Throw e
  | inr games_dict => Ret (Dict.values games_dict)
  end.

(** [GET /api/games] *)
Definition api_games (now : Instant) (raw_hours_ahead : option Z)
  : Prog (list GameView) :=
  match resolve hours_ahead_param raw_hours_ahead with
  | Some hours_ahead => get_upcoming_games now hours_ahead
  | None => RequestValidationError
  end.

(** ** Sample data *)

Module Sample.

Definition row (gid home away : string) (t : Instant) (bm tm : string)
    (spread : float) (price : Z) (ev : option float) : OddsRecord :=
  {| id := None; game_id := gid; sport := "basketball_nba";
     home_team := home; away_team := away; commence_time := Datetime t;
     bookmaker := bm; team := tm; point_spread := spread; odds := price;
     ev_percentage := ev; is_positive_ev := false;
     last_update := Datetime 0; ingested_at := None |}.

Definition hour : Z := 3600 * 1000000.

Definition d1 : Document :=
  mkDoc "doc1" (row "G1" "Home" "Away" (2 * hour) "A" "Home" (-3.5)%float (-110) (Some 3%float)).
Definition d2 : Document :=
  mkDoc "doc2" (row "G1" "Home" "Away" (2 * hour) "B" "Home" (-3)%float (-105) (Some 7%float)).
Definition d3 : Document :=
  mkDoc "doc3" (row "G2" "Hosts" "Guests" (3 * hour) "A" "Guests" (1.5)%float 100 None).
Definition d4 : Document :=
  mkDoc "doc4" (row "G1" "Home" "Away" (2 * hour) "A" "Away" (3.5)%float (-110) None).

(** A store that answers every query with the same rows. *)
Definition db (docs : list Document) : Gateway := fun _ => inr docs.

(** A store whose query fails. *)
Definition broken (msg : string) : Gateway := fun _ => inl (StoreError msg).

Definition request (b t : option string) (m : option float)
    (h l : option Z) : OddsRequest :=
  mkOddsRequest b t m h l.

End Sample.

(** ** Notions used to state the properties *)

(** A row that passes the three secondary filters. *)
Definition keeps (b t : option string) (m : option float) (doc : Document) : bool :=
  negb (skip_bookmaker b (to_dict doc)) &&
  negb (skip_team t (to_dict doc)) &&
  negb (skip_ev m (to_dict doc)).

(** Ascending order of two rows by [commence_time]. *)
Definition commence_le (r1 r2 : OddsRecord) : Prop :=
  match instant (commence_time r1), instant (commence_time r2) with
  | Some t1, Some t2 => t1 <= t2
  | _, _ => False
  end.

(** The number of results the loop can accumulate before it stops: the
    test [len(results) >= limit] runs after an append. *)
Definition capacity (limit : Z) : nat := Z.to_nat (Z.max 1 limit).

(** The time window of a request. *)
Definition in_window (now : Instant) (hours_ahead : Z) (r : OddsRecord) : Prop :=
  exists t, instant (commence_time r) = Some t /\
            now < t <= now + timedelta_hours hours_ahead.

(** The store kept to the row cap the query set with [limit()]. *)
Definition honours_limit (q : Query) (docs : list Document) : Prop :=
  match q_limit q with
  | Some cap => Z.of_nat (List.length docs) <= cap
  | None => True
  end.

(** ** Requests on the heap of the process *)

(** The handlers accumulate their result in a mutable object: the list
    [results], the dictionary [games_dict] (taken with everything it holds).
    To speak of state shared between requests the objects live on a heap
    that outlasts a request: whatever earlier requests created is there when
    the next one starts. *)
Inductive PyObj : Type :=
| PyList (items : list OddsRecord)
| PyDict (games : Dict.t GameView).

Definition Heap : Type := list PyObj.

(** A reference is the position of an object on the heap. *)
Definition Ref : Type := nat.

(** A handler on the heap: from the heap it finds, a program that ends with
    its value and the heap it leaves. *)
Definition Req (A : Type) : Type := Heap -> Prog (A * Heap).

Definition unit_req {A : Type} (a : A) : Req A :=
  fun hp => Ret (a, hp).

Definition bind_req {A B : Type} (r : Req A) (f : A -> Req B) : Req B :=
  fun hp => bind (r hp) (fun ah => f (fst ah) (snd ah)).

Notation "x <~ r ;; k" := (bind_req r (fun x => k))
  (at level 61, r at next level, right associativity).

(** A store access leaves the heap alone. *)
Definition lift {A : Type} (p : Prog A) : Req A :=
  fun hp => bind p (fun a => Ret (a, hp)).

Definition raise {A : Type} (e : Exn) : Req A :=
  fun _ => Throw e.

Fixpoint replace_at (r : Ref) (o : PyObj) (hp : Heap) : Heap :=
  match hp, r with
  | [], _ => []
  | _ :: rest, O => o :: rest
  | first :: rest, S r' => first :: replace_at r' o rest
  end.

(** [[]] or [{}]: a new object, after those that exist. *)
Definition new_object (o : PyObj) : Req Ref :=
  fun hp => Ret (List.length hp, hp ++ [o]).

(** The operations on a list or a dictionary reached through a reference.
    A reference a handler holds was returned by [new_object] for an object
    of that kind; on any other the operation finds nothing to do. *)
Definition list_items (r : Ref) : Req (list OddsRecord) :=
  fun hp =>
    match nth_error hp r with
    | Some (PyList items) => Ret (items, hp)
    | _ => Ret ([], hp)
    end.

(** [results.append(x)]: the object is changed in place. *)
Definition list_append (r : Ref) (x : OddsRecord) : Req unit :=
  fun hp =>
    match nth_error hp r with
    | Some (PyList items) => Ret (tt, replace_at r (PyList (items ++ [x])) hp)
    | _ => Ret (tt, hp)
    end.

(** [len(results)] *)
Definition list_len (r : Ref) : Req nat :=
  items <~ list_items r ;;
  unit_req (List.length items).

Definition dict_games (r : Ref) : Req (Dict.t GameView) :=
  fun hp =>
    match nth_error hp r with
    | Some (PyDict games) => Ret (games, hp)
    | _ => Ret (Dict.empty, hp)
    end.

Definition dict_update (r : Ref) (games : Dict.t GameView) : Req unit :=
  fun hp => Ret (tt, replace_at r (PyDict games) hp).

Section OddsLoopOnHeap.

Variables (bookmaker_ team_ : option string) (min_ev : option float).
Variable limit : Z.

(** The loop of [get_odds] with [results] as the object it is. *)
Fixpoint odds_loop_heap (docs : list Document) (results : Ref) : Req unit :=
  match docs with
  | [] => unit_req tt
  | doc :: rest =>
      let data := to_dict doc in
      if skip_bookmaker bookmaker_ data then odds_loop_heap rest results
      else if skip_team team_ data then odds_loop_heap rest results
      else if skip_ev min_ev data then odds_loop_heap rest results
      else
        _ <~ list_append results (render doc) ;;
        n <~ list_len results ;;
        if Z.of_nat n >=? limit then unit_req tt
        else odds_loop_heap rest results
  end.

End OddsLoopOnHeap.

Definition get_odds_heap (now : Instant) (bookmaker_ team_ : option string)
    (min_ev : option float) (hours_ahead limit : Z) : Req (list OddsRecord) :=
  let query := odds_query now hours_ahead limit in
  docs <~ lift (try_except (stream query)
                  (fun e => HTTPException 500
                              (String.append query_failed (str e)))) ;;
  results <~ new_object (PyList []) ;;
  _ <~ odds_loop_heap bookmaker_ team_ min_ev limit docs results ;;
  list_items results.

Definition api_odds_heap (now : Instant) (rq : OddsRequest)
  : Req (list OddsRecord) :=
  match resolve hours_ahead_param (rq_hours_ahead rq),
        resolve limit_param (rq_limit rq) with
  | Some hours_ahead, Some limit =>
      get_odds_heap now (rq_bookmaker rq) (rq_team rq) (rq_min_ev rq)
                    hours_ahead limit
  | _, _ => fun _ => RequestValidationError
  end.

(** The loop of [get_upcoming_games] with [games_dict] as the object it is:
    each row changes the dictionary in place. *)
Fixpoint games_loop_heap (docs : list Document) (games_dict : Ref) : Req unit :=
  match docs with
  | [] => unit_req tt
  | doc :: rest =>
      games <~ dict_games games_dict ;;
      match games_step games doc with
      | inl e => raise e
      | inr games =>
          _ <~ dict_update games_dict games ;;
          games_loop_heap rest games_dict
      end
  end.

Definition get_upcoming_games_heap (now : Instant) (hours_ahead : Z)
  : Req (list GameView) :=
  let query := games_query now hours_ahead in
  docs <~ lift (stream query) ;;
  games_dict <~ new_object (PyDict Dict.empty) ;;
  _ <~ games_loop_heap docs games_dict ;;
  games <~ dict_games games_dict ;;
  unit_req (Dict.values games).

Definition api_games_heap (now : Instant) (raw_hours_ahead : option Z)
  : Req (list GameView) :=
  match resolve hours_ahead_param raw_hours_ahead with
  | Some hours_ahead => get_upcoming_games_heap now hours_ahead
  | None => fun _ => RequestValidationError
  end.

(** The same request handled twice, the second time on the heap the first
    one left. *)
Definition twice {A : Type} (r : Req A) : Req (A * A) :=
  first <~ r ;;
  second <~ r ;;
  unit_req (first, second).

(** What the client sees of an outcome: the value, not the heap. *)
Definition answer {A : Type} (o : Outcome (A * Heap)) : Outcome A :=
  match o with
  | Returned (a, _) => Returned a
  | Raised e => Raised e
  | Responded s d => Responded s d
  | Rejected => Rejected
  end.

(** ** Grouping, as a specification *)

(** The elements of a list that are the first with their key, in order. *)
Fixpoint first_by {A : Type} (key : A -> string) (l : list A) : list A :=
  match l with
  | [] => []
  | x :: rest =>
      x :: filter (fun y => negb (key y =? key x)%string) (first_by key rest)
  end.

(** The distinct strings of a list, in order of first occurrence. *)
Definition first_seen (l : list string) : list string :=
  first_by (fun s => s) l.

(** Whether some element of the list has the key. *)
Definition seen {A : Type} (key : A -> string) (k : string) (l : list A) : bool :=
  existsb (fun y => (key y =? k)%string) l.

(** A dictionary given by its keys, in order, and the value at each. *)
Definition tabulate {A V : Type} (key : A -> string) (f : A -> V) (xs : list A)
  : Dict.t V :=
  map (fun x => (key x, f x)) xs.

Definition doc_game (d : Document) : string := game_id (to_dict d).

Definition doc_bookmaker (d : Document) : string := bookmaker (to_dict d).

Definition doc_line (d : Document) : Line := line_of (to_dict d).

Definition same_game (gid : string) (d : Document) : bool :=
  (doc_game d =? gid)%string.

Definition same_bookmaker (b : string) (d : Document) : bool :=
  (doc_bookmaker d =? b)%string.

(** The bookmakers of the rows of one game: one key per distinct bookmaker,
    in order of first occurrence, each with its lines in arrival order. *)
Definition bookmakers_of (rows : list Document) : Dict.t (list Line) :=
  tabulate (fun b => b)
           (fun b => map doc_line (filter (same_bookmaker b) rows))
           (first_seen (map doc_bookmaker rows)).

(** The view of the game that [seed] is the first row of. *)
Definition view_of (docs : list Document) (seed : Document) : GameView :=
  with_bookmakers (new_game (to_dict seed))
                  (bookmakers_of (filter (same_game (doc_game seed)) docs)).

Definition games_spec (docs : list Document) : Dict.t GameView :=
  tabulate doc_game (view_of docs) (first_by doc_game docs).

(** The update [get_upcoming_games] makes to the bookmakers of a game. *)
Definition add_line (b : string) (line : Line) (bookmakers : Dict.t (list Line))
  : Dict.t (list Line) :=
  let bookmakers :=
    if negb (Dict.contains b bookmakers) then Dict.set b [] bookmakers
    else bookmakers in
  match Dict.get b bookmakers with
  | Some entries => Dict.set b (entries ++ [line]) bookmakers
  | None => bookmakers
  end.

(** ** Further notions for the handlers *)

(** A field value that is text or null: no timestamp object is left. *)
Definition plain (v : TimeField) : bool :=
  match v with
  | Datetime _ | Stamp _ => false
  | IsoText _ | LocalIsoText _ | Text _ | Null => true
  end.

(** The number of lines a view holds, over all its bookmakers. *)
Definition lines_in (v : GameView) : nat :=
  list_sum (map (fun entry => List.length (snd entry)) (gv_bookmakers v)).

(** ** [utils.py] *)

(** A [datetime] is naive (no [tzinfo]; [utcnow()] returns such a value) or
    aware; mixing the two in a subtraction raises [TypeError]. *)
Inductive PyDatetime : Type :=
| Naive (t : Instant)
| Aware (t : Instant).

Inductive UtilExn : Type := TypeError | OverflowError.

Definition day_us : Z := 86400 * 1000000.

(** The range of [timedelta]: magnitudes up to 999999999 days. *)
Definition timedelta_min : Z := -999999999 * day_us.
Definition timedelta_max : Z := 999999999 * day_us + (day_us - 1).

(** [timedelta(minutes=m)], in microseconds. *)
Definition timedelta_minutes (m : Z) : UtilExn + Z :=
  let us := m * 60 * 1000000 in
  if (timedelta_min <=? us) && (us <=? timedelta_max) then inr us
  else inl OverflowError.

(** [a - b] on datetimes, in microseconds.  Both operands are dates between
    the years 1 and 9999, so the difference is always a [timedelta]. *)
Definition datetime_sub (a b : PyDatetime) : UtilExn + Z :=
  match a, b with
  | Naive x, Naive y => inr (x - y)
  | Aware x, Aware y => inr (x - y)
  | _, _ => inl TypeError
  end.

(** The normalized fields [delta.days] and [delta.seconds]. *)
Definition days (delta : Z) : Z := delta / day_us.
Definition seconds (delta : Z) : Z := (delta mod day_us) / 1000000.

(** [is_odds_fresh(last_update, max_age_minutes=30)]; [now] is the value of
    [datetime.utcnow()], an omitted [max_age_minutes] is [None]. *)
Definition is_odds_fresh (now : Instant) (last_update : option PyDatetime)
    (max_age_minutes : option Z) : UtilExn + bool :=
  let max_age_minutes :=
    match max_age_minutes with Some m => m | None => 30 end in
  match last_update with
  | None => inr false
  | Some last_update =>
      match datetime_sub (Naive now) last_update with
      | inl e => inl e
      | inr age =>
          match timedelta_minutes max_age_minutes with
          | inl e => inl e
          | inr bound => inr (age <? bound)
          end
      end
  end.

(** [f"{n}"] for an integer. *)
Definition str_int (n : Z) : string := NilZero.string_of_int (Z.to_int n).

(** [format_time_until(commence_time)] *)
Definition format_time_until (now : Instant) (commence_time : PyDatetime)
  : UtilExn + string :=
  match datetime_sub commence_time (Naive now) with
  | inl e => inl e
  | inr delta =>
      if days delta >? 0 then
        inr (String.append (str_int (days delta))
               (String.append "d "
                  (String.append (str_int (seconds delta / 3600)) "h")))
      else if seconds delta >=? 3600 then
        inr (String.append (str_int (seconds delta / 3600))
               (String.append "h "
                  (String.append (str_int ((seconds delta mod 3600) / 60)) "m")))
      else
        inr (String.append (str_int (seconds delta / 60)) "m")
  end.

(** * Properties *)

(** ** Running the two handlers *)

Lemma run_get_odds (db : Gateway) now b t m h l :
  run db (get_odds now b t m h l) =
  (match db (odds_query now h l) with
   | inl e => Responded 500 (String.append query_failed (str e))
   | inr docs => Returned (odds_loop b t m l docs [])
   end, [odds_query now h l]).
Proof.
  unfold get_odds, stream; cbn.
  destruct (db (odds_query now h l)); reflexivity.
Qed.

Lemma run_get_upcoming_games (db : Gateway) now h :
  run db (get_upcoming_games now h) =
  (match db (games_query now h) with
   | inl e => Raised e
   | inr docs =>
       match games_loop docs Dict.empty with
       | inl e => Raised e
       | inr games_dict => Returned (Dict.values games_dict)
       end
   end, [games_query now h]).
Proof.
  unfold get_upcoming_games, stream; cbn.
  destruct (db (games_query now h)) as [e | docs]; cbn; [reflexivity |].
  destruct (games_loop docs Dict.empty); reflexivity.
Qed.

Lemma api_odds_valid now rq h l :
  resolve hours_ahead_param (rq_hours_ahead rq) = Some h ->
  resolve limit_param (rq_limit rq) = Some l ->
  api_odds now rq = get_odds now (rq_bookmaker rq) (rq_team rq) (rq_min_ev rq) h l.
Proof. intros Hh Hl; unfold api_odds; rewrite Hh, Hl; reflexivity. Qed.

Lemma resolve_hours_ahead_bounds raw h :
  resolve hours_ahead_param raw = Some h -> 1 <= h <= 168.
Proof.
  destruct raw as [v |]; cbn.
  - destruct (1 <=? v) eqn:E1, (v <=? 168) eqn:E2; cbn; intros [=]; subst; lia.
  - intros [=]; subst; lia.
Qed.

Lemma resolve_limit_bound raw l :
  resolve limit_param raw = Some l -> l <= 500.
Proof.
  destruct raw as [v |]; cbn.
  - destruct (v <=? 500) eqn:E; intros [=]; subst; lia.
  - intros [=]; subst; lia.
Qed.

(** The range the two queries ask for. *)
Lemma row_matches_odds_query now h l d :
  row_matches (odds_query now h l) d = true <->
  exists t, instant (commence_time (to_dict d)) = Some t /\
            now < t <= now + timedelta_hours h.
Proof.
  unfold row_matches, odds_query, satisfies; cbn.
  destruct (instant (commence_time (to_dict d))) as [t |]; cbn.
  - rewrite !andb_true_r, andb_true_iff, Z.gtb_lt, Z.leb_le. split.
    + intros [? ?]; exists t; split; [reflexivity | lia].
    + intros (t' & [= <-] & ?); lia.
  - split; [discriminate | intros (t & [=] & _)].
Qed.

Lemma row_matches_games_query now h l d :
  row_matches (games_query now h) d = row_matches (odds_query now h l) d.
Proof. reflexivity. Qed.

(** ** Validation *)

(** C4: [hours_ahead] outside [1, 168] and [limit] above 500 are rejected
    before any store access (no query is issued); 1, 168 and 500 are accepted;
    an omitted [hours_ahead] is 48 and an omitted [limit] is 100. *)
Theorem C4_parameter_validation :
  (forall db now rq h,
      rq_hours_ahead rq = Some h -> h < 1 \/ 168 < h ->
      run db (api_odds now rq) = (Rejected, [])) /\
  (forall db now rq l,
      rq_limit rq = Some l -> 500 < l ->
      run db (api_odds now rq) = (Rejected, [])) /\
  (forall db now b t m,
      run db (api_odds now (mkOddsRequest b t m (Some 0) None)) = (Rejected, []) /\
      run db (api_odds now (mkOddsRequest b t m (Some 169) None)) = (Rejected, []) /\
      run db (api_odds now (mkOddsRequest b t m None (Some 501))) = (Rejected, []) /\
      api_odds now (mkOddsRequest b t m (Some 1) None) = get_odds now b t m 1 100 /\
      api_odds now (mkOddsRequest b t m (Some 168) None) = get_odds now b t m 168 100 /\
      api_odds now (mkOddsRequest b t m None (Some 500)) = get_odds now b t m 48 500 /\
      api_odds now (mkOddsRequest b t m None None) = get_odds now b t m 48 100) /\
  (forall now b t m h l,
      1 <= h <= 168 -> l <= 500 ->
      api_odds now (mkOddsRequest b t m (Some h) (Some l)) = get_odds now b t m h l).
Proof.
  repeat split.
  - intros db now rq h Hh Hout. unfold api_odds. rewrite Hh. cbn.
    destruct (1 <=? h) eqn:E1, (h <=? 168) eqn:E2; cbn; try reflexivity.
    apply Z.leb_le in E1, E2. lia.
  - intros db now rq l Hl Hout. unfold api_odds. rewrite Hl. cbn.
    destruct (l <=? 500) eqn:E; [apply Z.leb_le in E; lia |].
    destruct (resolve hours_ahead_param (rq_hours_ahead rq)); reflexivity.
  - intros now b t m h l [H1 H2] H3. unfold api_odds; cbn.
    apply Z.leb_le in H1, H2, H3. rewrite H1, H2, H3. reflexivity.
Qed.

Lemma C4_parameter_validation_witness :
  run (Sample.broken "down")
      (api_odds 0 (Sample.request None None None (Some 169) None)) = (Rejected, []) /\
  run (Sample.broken "down")
      (api_odds 0 (Sample.request None None None None (Some 501))) = (Rejected, []) /\
  api_odds 0 (Sample.request None None None (Some 24) (Some 10)) =
  get_odds 0 None None None 24 10.
Proof.
  destruct C4_parameter_validation as (Hh & Hl & _ & Hok).
  split; [| split].
  - apply (Hh _ _ _ 169); [reflexivity | lia].
  - apply (Hl _ _ _ 501); [reflexivity | lia].
  - apply Hok; lia.
Defined.

(** C10: [limit] has no lower bound: it is accepted exactly when it is at
    most 500, so zero and negative values pass validation, and the row cap
    [limit * 5] of the query that is then issued is zero or negative. *)
Theorem C10_limit_has_no_lower_bound :
  (forall l, resolve limit_param (Some l) = Some l <-> l <= 500) /\
  (forall db now rq h l,
      resolve hours_ahead_param (rq_hours_ahead rq) = Some h ->
      rq_limit rq = Some l -> l <= 0 ->
      resolve limit_param (rq_limit rq) = Some l /\
      snd (run db (api_odds now rq)) = [odds_query now h l] /\
      fst (run db (api_odds now rq)) <> Rejected /\
      q_limit (odds_query now h l) = Some (l * 5) /\
      l * 5 <= 0).
Proof.
  split.
  - intros l; cbn. destruct (l <=? 500) eqn:E.
    + apply Z.leb_le in E. split; [intros _; exact E | reflexivity].
    + apply Z.leb_gt in E. split; [discriminate | lia].
  - intros db now rq h l Hh Hl Hneg.
    assert (Hr : resolve limit_param (rq_limit rq) = Some l).
    { rewrite Hl; cbn. destruct (l <=? 500) eqn:E; [reflexivity |].
      apply Z.leb_gt in E; lia. }
    rewrite (api_odds_valid now rq h l Hh Hr), run_get_odds. cbn [fst snd].
    split; [exact Hr | split; [reflexivity | split; [| split; [reflexivity | lia]]]].
    destruct (db (odds_query now h l)); discriminate.
Qed.

Lemma C10_limit_has_no_lower_bound_witness :
  resolve limit_param (Some (-3)) = Some (-3) /\
  snd (run (Sample.db [Sample.d1])
           (api_odds 0 (Sample.request None None None None (Some (-3))))) =
  [odds_query 0 48 (-3)] /\
  q_limit (odds_query 0 48 (-3)) = Some (-15).
Proof.
  destruct C10_limit_has_no_lower_bound as [_ H].
  destruct (H (Sample.db [Sample.d1]) 0
              (Sample.request None None None None (Some (-3))) 48 (-3))
    as (H1 & H2 & _ & H4 & _); [reflexivity | reflexivity | lia |].
  split; [exact H1 | split; [exact H2 | exact H4]].
Defined.

(** ** The filtering loop *)

Lemma odds_loop_spec b t m limit docs :
  forall results,
    (List.length results < capacity limit)%nat ->
    odds_loop b t m limit docs results =
    results ++ firstn (capacity limit - List.length results)
                      (map render (filter (keeps b t m) docs)).
Proof.
  induction docs as [| doc rest IH]; intros results Hlen; cbn [odds_loop filter map].
  - rewrite firstn_nil, app_nil_r; reflexivity.
  - unfold keeps at 1.
    destruct (skip_bookmaker b (to_dict doc)); cbn [negb andb]; [apply IH, Hlen |].
    destruct (skip_team t (to_dict doc)); cbn [negb andb]; [apply IH, Hlen |].
    destruct (skip_ev m (to_dict doc)); cbn [negb andb]; [apply IH, Hlen |].
    cbn [map].
    destruct (capacity limit - List.length results)%nat as [| k] eqn:Hk; [lia |].
    cbn [firstn]. rewrite length_app; cbn [List.length].
    destruct (Z.of_nat (List.length results + 1) >=? limit) eqn:Hstop.
    + apply Z.geb_le in Hstop. unfold capacity in *.
      assert (k = 0%nat) by lia. subst k. reflexivity.
    + rewrite Z.geb_leb in Hstop. apply Z.leb_gt in Hstop.
      rewrite IH; rewrite length_app; cbn [List.length]; unfold capacity in *; [| lia].
      rewrite <- app_assoc; cbn [app].
      replace (Z.to_nat (Z.max 1 limit) - (List.length results + 1))%nat with k by lia.
      reflexivity.
Qed.

Lemma odds_loop_from_empty b t m limit docs :
  odds_loop b t m limit docs [] =
  firstn (capacity limit) (map render (filter (keeps b t m) docs)).
Proof.
  rewrite odds_loop_spec; cbn [List.length app].
  - rewrite Nat.sub_0_r; reflexivity.
  - unfold capacity; lia.
Qed.

Lemma In_firstn_In {A : Type} (n : nat) (l : list A) (x : A) :
  In x (firstn n l) -> In x l.
Proof.
  revert l; induction n as [| n IH]; intros [| y l]; cbn; try tauto.
  intros [-> | H]; [left; reflexivity | right; apply IH, H].
Qed.

Lemma instant_to_iso v : instant (to_iso v) = instant v.
Proof. destruct v; reflexivity. Qed.

Lemma commence_le_render d1 d2 :
  commence_le (render d1) (render d2) <-> commence_le (to_dict d1) (to_dict d2).
Proof. unfold commence_le, render; cbn; rewrite !instant_to_iso; reflexivity. Qed.

Lemma commence_le_trans r1 r2 r3 :
  commence_le r1 r2 -> commence_le r2 r3 -> commence_le r1 r3.
Proof.
  unfold commence_le.
  destruct (instant (commence_time r1)), (instant (commence_time r2)),
    (instant (commence_time r3)); try tauto; lia.
Qed.

(** ** Comparisons of binary64 numbers *)

Lemma SFcompare_antisym x y c :
  SFcompare x y = Some c -> SFcompare y x = Some (CompOpp c).
Proof.
  destruct x as [sx | sx | | sx mx ex], y as [sy | sy | | sy my ey]; cbn;
    try discriminate; try (intros [= <-]; destruct sx; try destruct sy; reflexivity).
  intros [= <-]. f_equal.
  pose proof (Pos.compare_cont_antisym mx my Eq) as Hm; cbn in Hm.
  destruct sx, sy; try reflexivity; rewrite (Z.compare_antisym ex ey);
    destruct (ex ?= ey) eqn:E; cbn; try reflexivity;
    rewrite <- Hm; try reflexivity.
Qed.

Lemma SFcompare_defined x y :
  SFcompare x x <> None -> SFcompare y y <> None -> SFcompare x y <> None.
Proof.
  destruct x as [sx | sx | | sx mx ex], y as [sy | sy | | sy my ey]; cbn;
    congruence.
Qed.

(** For numbers that are not NaN, "not below" is "at least". *)
Lemma float_not_below (e m : float) :
  PrimFloat.ltb e m = false ->
  PrimFloat.is_nan e = false -> PrimFloat.is_nan m = false ->
  PrimFloat.leb m e = true.
Proof.
  unfold PrimFloat.is_nan.
  rewrite ltb_spec, leb_spec, !eqb_spec. unfold SFltb, SFleb, SFeqb.
  intros Hlt He Hm.
  assert (Hd : SFcompare (Prim2SF e) (Prim2SF m) <> None).
  { apply SFcompare_defined.
    - destruct (SFcompare (Prim2SF e) (Prim2SF e)); [discriminate | discriminate He].
    - destruct (SFcompare (Prim2SF m) (Prim2SF m)); [discriminate | discriminate Hm]. }
  destruct (SFcompare (Prim2SF e) (Prim2SF m)) as [c |] eqn:Ec; [| congruence].
  rewrite (SFcompare_antisym _ _ _ Ec).
  destruct c; cbn; [reflexivity | discriminate | reflexivity].
Qed.

(** ** Sortedness through filtering and truncation *)

Section StronglySortedFacts.

Context {A B : Type} (R : A -> A -> Prop) (R' : B -> B -> Prop).

Lemma StronglySorted_filter (f : A -> bool) (l : list A) :
  StronglySorted R l -> StronglySorted R (filter f l).
Proof.
  induction 1 as [| x l Hs IH Hall]; cbn; [constructor |].
  destruct (f x); [| exact IH].
  constructor; [exact IH |].
  rewrite Forall_forall in *. intros y Hy. apply filter_In in Hy. apply Hall, Hy.
Qed.

Lemma StronglySorted_firstn (n : nat) (l : list A) :
  StronglySorted R l -> StronglySorted R (firstn n l).
Proof.
  intros Hs; revert n. induction Hs as [| x l Hs IH Hall]; intros [| n]; cbn;
    try constructor; [apply IH |].
  rewrite Forall_forall in *. intros y Hy. apply Hall. eapply In_firstn_In, Hy.
Qed.

Lemma StronglySorted_map (g : A -> B) (l : list A) :
  (forall x y, R x y -> R' (g x) (g y)) ->
  StronglySorted R l -> StronglySorted R' (map g l).
Proof.
  intros Hg. induction 1 as [| x l Hs IH Hall]; cbn; constructor; [exact IH |].
  rewrite Forall_forall in *. intros y Hy. apply in_map_iff in Hy.
  destruct Hy as (z & <- & Hz). apply Hg, Hall, Hz.
Qed.

End StronglySortedFacts.

Lemma Sorted_commence_strong (l : list OddsRecord) :
  Sorted commence_le l -> StronglySorted commence_le l.
Proof.
  apply Sorted_StronglySorted. intros x y z. apply commence_le_trans.
Qed.

(** ** What passing the filters means *)

Lemma keeps_bookmaker b t m doc s :
  keeps b t m doc = true -> b = Some s -> s <> "" -> bookmaker (to_dict doc) = s.
Proof.
  unfold keeps, skip_bookmaker. intros H -> Hs.
  apply andb_true_iff in H; destruct H as [H _].
  apply andb_true_iff in H; destruct H as [H _].
  cbn in H. destruct (String.eqb_spec s ""); [contradiction |]. cbn in H.
  destruct (String.eqb_spec (bookmaker (to_dict doc)) s); [assumption | discriminate].
Qed.

Lemma keeps_team b t m doc s :
  keeps b t m doc = true -> t = Some s -> s <> "" -> team (to_dict doc) = s.
Proof.
  unfold keeps, skip_team. intros H -> Hs.
  apply andb_true_iff in H; destruct H as [H _].
  apply andb_true_iff in H; destruct H as [_ H].
  cbn in H. destruct (String.eqb_spec s ""); [contradiction |]. cbn in H.
  destruct (String.eqb_spec (team (to_dict doc)) s); [assumption | discriminate].
Qed.

Lemma keeps_min_ev b t m doc x :
  keeps b t m doc = true -> m = Some x ->
  exists e, ev_percentage (to_dict doc) = Some e /\ PrimFloat.ltb e x = false.
Proof.
  unfold keeps, skip_ev. intros H ->.
  apply andb_true_iff in H; destruct H as [_ H].
  destruct (ev_percentage (to_dict doc)) as [e |]; [| discriminate].
  exists e. split; [reflexivity |]. destruct (PrimFloat.ltb e x); [discriminate | reflexivity].
Qed.

Lemma outcome_api_odds db now rq h l docs :
  resolve hours_ahead_param (rq_hours_ahead rq) = Some h ->
  resolve limit_param (rq_limit rq) = Some l ->
  db (odds_query now h l) = inr docs ->
  outcome db (api_odds now rq) =
  Returned (firstn (capacity l)
              (map render
                 (filter (keeps (rq_bookmaker rq) (rq_team rq) (rq_min_ev rq)) docs))).
Proof.
  intros Hh Hl Hdb. unfold outcome.
  rewrite (api_odds_valid now rq h l Hh Hl), run_get_odds, Hdb.
  cbn [fst]. rewrite odds_loop_from_empty. reflexivity.
Qed.

(** ** The odds query *)

(** C1 (amended): for every valid request and every store response whose
    rows lie in the queried range, every output record starts in the window
    [now < commence_time <= now + hours_ahead]; its bookmaker (team) is the
    requested one when a non-empty bookmaker (team) was requested; and when
    [min_ev] was given its [ev_percentage] is present and not below [min_ev],
    which is [ev_percentage >= min_ev] whenever neither number is NaN. *)
Theorem C1_output_matches_filters db now rq h l docs :
  resolve hours_ahead_param (rq_hours_ahead rq) = Some h ->
  resolve limit_param (rq_limit rq) = Some l ->
  db (odds_query now h l) = inr docs ->
  (forall d, In d docs -> row_matches (odds_query now h l) d = true) ->
  exists out,
    outcome db (api_odds now rq) = Returned out /\
    forall o, In o out ->
      in_window now h o /\
      (forall b, rq_bookmaker rq = Some b -> b <> "" -> bookmaker o = b) /\
      (forall t, rq_team rq = Some t -> t <> "" -> team o = t) /\
      (forall m, rq_min_ev rq = Some m ->
         exists e, ev_percentage o = Some e /\
                   PrimFloat.ltb e m = false /\
                   (PrimFloat.is_nan e = false -> PrimFloat.is_nan m = false ->
                    PrimFloat.leb m e = true)).
Proof.
  intros Hh Hl Hdb Hrange.
  eexists; split; [apply (outcome_api_odds db now rq h l docs Hh Hl Hdb) |].
  intros o Ho. apply In_firstn_In, in_map_iff in Ho.
  destruct Ho as (doc & <- & Hdoc). apply filter_In in Hdoc.
  destruct Hdoc as [Hin Hkeep].
  split; [| split; [| split]].
  - apply Hrange, row_matches_odds_query in Hin. destruct Hin as (t & Ht & Hw).
    exists t. split; [| exact Hw]. cbn. rewrite instant_to_iso. exact Ht.
  - intros b Hb Hne. exact (keeps_bookmaker _ _ _ _ _ Hkeep Hb Hne).
  - intros t Ht Hne. exact (keeps_team _ _ _ _ _ Hkeep Ht Hne).
  - intros m Hm. destruct (keeps_min_ev _ _ _ _ _ Hkeep Hm) as (e & He & Hlt).
    exists e. split; [exact He | split; [exact Hlt |]].
    intros Hne Hnm. apply float_not_below; assumption.
Qed.

Lemma C1_output_matches_filters_witness :
  exists out,
    outcome (Sample.db [Sample.d1; Sample.d2])
            (api_odds 0 (Sample.request (Some "B") (Some "Home") (Some 5%float)
                                        None None)) = Returned out /\
    forall o, In o out ->
      in_window 0 48 o /\
      (forall b, Some "B" = Some b -> b <> "" -> bookmaker o = b) /\
      (forall t, Some "Home" = Some t -> t <> "" -> team o = t) /\
      (forall m, Some 5%float = Some m ->
         exists e, ev_percentage o = Some e /\
                   PrimFloat.ltb e m = false /\
                   (PrimFloat.is_nan e = false -> PrimFloat.is_nan m = false ->
                    PrimFloat.leb m e = true)).
Proof.
  apply (C1_output_matches_filters (Sample.db [Sample.d1; Sample.d2]) 0
           (Sample.request (Some "B") (Some "Home") (Some 5%float) None None)
           48 100 [Sample.d1; Sample.d2]).
  - reflexivity.
  - reflexivity.
  - reflexivity.
  - intros d [<- | [<- | []]]; reflexivity.
Defined.

(** C1 as stated fails in two ways.  An empty bookmaker string is a
    specified filter that the handler treats as no filter: the row of
    bookmaker "A" is returned.  With [min_ev] NaN no comparison drops a row:
    the row with [ev_percentage] 3 is returned although [3 >= NaN] is
    false. *)
Lemma C1_counterexample :
  resolve hours_ahead_param None = Some 48 /\
  resolve limit_param None = Some 100 /\
  row_matches (odds_query 0 48 100) Sample.d1 = true /\
  (outcome (Sample.db [Sample.d1])
           (api_odds 0 (Sample.request (Some "") None None None None)) =
   Returned [render Sample.d1] /\
   bookmaker (render Sample.d1) = "A" /\ "A" <> "") /\
  (outcome (Sample.db [Sample.d1])
           (api_odds 0 (Sample.request None None (Some PrimFloat.nan) None None)) =
   Returned [render Sample.d1] /\
   ev_percentage (render Sample.d1) = Some 3%float /\
   PrimFloat.leb PrimFloat.nan 3%float = false).
Proof.
  repeat split; try reflexivity. discriminate.
Qed.

(** C5: for every valid request and every answer of the store, which holds
    no more rows than the cap the query set, the output has at most [limit]
    records: it is the first [limit] of the rows that pass the filters, in
    store order.  Rows after the point where [limit] results were reached do
    not matter, and when fewer than [limit] rows pass, all of them are
    returned. *)
Theorem C5_limit_caps_output db now rq h l docs :
  resolve hours_ahead_param (rq_hours_ahead rq) = Some h ->
  resolve limit_param (rq_limit rq) = Some l ->
  db (odds_query now h l) = inr docs ->
  honours_limit (odds_query now h l) docs ->
  let passing := keeps (rq_bookmaker rq) (rq_team rq) (rq_min_ev rq) in
  exists out,
    outcome db (api_odds now rq) = Returned out /\
    Z.of_nat (List.length out) <= l /\
    out = firstn (Z.to_nat l) (map render (filter passing docs)) /\
    (forall pre suf,
        docs = pre ++ suf ->
        l <= Z.of_nat (List.length (filter passing pre)) ->
        out = firstn (Z.to_nat l) (map render (filter passing pre))) /\
    (Z.of_nat (List.length (filter passing docs)) < l ->
     out = map render (filter passing docs)).
Proof.
  intros Hh Hl Hdb Hcap passing.
  eexists; split; [apply (outcome_api_odds db now rq h l docs Hh Hl Hdb) |].
  fold passing. unfold honours_limit in Hcap. cbn in Hcap.
  destruct (Z_le_gt_dec 1 l) as [Hpos | Hneg].
  - assert (Hc : capacity l = Z.to_nat l) by (unfold capacity; f_equal; lia).
    rewrite Hc.
    split; [| split; [reflexivity | split]].
    + pose proof (firstn_le_length (Z.to_nat l) (map render (filter passing docs))). lia.
    + intros pre suf -> Hfull.
      rewrite filter_app, map_app, firstn_app, length_map.
      replace (Z.to_nat l - List.length (filter passing pre))%nat with 0%nat by lia.
      cbn [firstn]. apply app_nil_r.
    + intros Hfew. apply firstn_all2. rewrite length_map. lia.
  - assert (Hnil : docs = []) by (destruct docs; [reflexivity | cbn in Hcap; lia]).
    subst docs. cbn [filter map List.length] in *. rewrite !firstn_nil.
    split; [cbn; lia | split; [reflexivity | split]].
    + intros pre suf Happ _. symmetry in Happ. apply app_eq_nil in Happ.
      destruct Happ as [-> _]. cbn. rewrite firstn_nil. reflexivity.
    + intros _. reflexivity.
Qed.

Lemma C5_limit_caps_output_witness :
  let passing := keeps None None (Some 5%float) in
  exists out,
    outcome (Sample.db [Sample.d1; Sample.d2; Sample.d3])
            (api_odds 0 (Sample.request None None (Some 5%float) None (Some 1))) =
    Returned out /\
    Z.of_nat (List.length out) <= 1 /\
    out = firstn (Z.to_nat 1)
            (map render (filter passing [Sample.d1; Sample.d2; Sample.d3])) /\
    (forall pre suf,
        [Sample.d1; Sample.d2; Sample.d3] = pre ++ suf ->
        1 <= Z.of_nat (List.length (filter passing pre)) ->
        out = firstn (Z.to_nat 1) (map render (filter passing pre))) /\
    (Z.of_nat (List.length (filter passing [Sample.d1; Sample.d2; Sample.d3])) < 1 ->
     out = map render (filter passing [Sample.d1; Sample.d2; Sample.d3])).
Proof.
  apply (C5_limit_caps_output (Sample.db [Sample.d1; Sample.d2; Sample.d3]) 0
           (Sample.request None None (Some 5%float) None (Some 1)) 48 1
           [Sample.d1; Sample.d2; Sample.d3]).
  - reflexivity.
  - reflexivity.
  - reflexivity.
  - unfold honours_limit; cbn; lia.
Defined.

(** C6: when the store response is in ascending [commence_time] order, so is
    the output; and the query asks the store for that order. *)
Theorem C6_output_sorted db now rq h l docs :
  resolve hours_ahead_param (rq_hours_ahead rq) = Some h ->
  resolve limit_param (rq_limit rq) = Some l ->
  db (odds_query now h l) = inr docs ->
  Sorted commence_le (map to_dict docs) ->
  q_order (odds_query now h l) = Some ("commence_time", ASCENDING) /\
  exists out,
    outcome db (api_odds now rq) = Returned out /\
    Sorted commence_le out /\
    StronglySorted commence_le out.
Proof.
  intros Hh Hl Hdb Hsorted. split; [reflexivity |].
  eexists; split; [apply (outcome_api_odds db now rq h l docs Hh Hl Hdb) |].
  assert (Hs : StronglySorted commence_le
                 (firstn (capacity l)
                    (map render
                       (filter (keeps (rq_bookmaker rq) (rq_team rq) (rq_min_ev rq))
                          docs)))).
  { apply StronglySorted_firstn.
    apply (StronglySorted_map (fun d1 d2 => commence_le (to_dict d1) (to_dict d2))).
    - intros d1 d2 H. apply commence_le_render, H.
    - apply StronglySorted_filter.
      apply Sorted_commence_strong in Hsorted. clear - Hsorted.
      induction docs as [| d docs IH]; [constructor |].
      cbn in Hsorted. apply StronglySorted_inv in Hsorted. destruct Hsorted as [Hs Hall].
      constructor; [apply IH, Hs |].
      rewrite Forall_forall in *. intros d' Hd'. apply Hall, in_map, Hd'. }
  split; [apply StronglySorted_Sorted, Hs | exact Hs].
Qed.

Lemma C6_output_sorted_witness :
  q_order (odds_query 0 48 100) = Some ("commence_time", ASCENDING) /\
  exists out,
    outcome (Sample.db [Sample.d1; Sample.d2; Sample.d3])
            (api_odds 0 (Sample.request None None None None None)) = Returned out /\
    Sorted commence_le out /\
    StronglySorted commence_le out.
Proof.
  apply (C6_output_sorted (Sample.db [Sample.d1; Sample.d2; Sample.d3]) 0
           (Sample.request None None None None None) 48 100
           [Sample.d1; Sample.d2; Sample.d3]).
  - reflexivity.
  - reflexivity.
  - reflexivity.
  - repeat constructor; cbn; lia.
Defined.

(** C7: with [min_ev] given, no retrieved row whose [ev_percentage] is absent
    or below [min_ev] is in the output, and every output record carries an
    [ev_percentage] that is not below [min_ev]; with [min_ev = 5] and rows of
    EV 3 and 7, exactly the second row is returned. *)
Theorem C7_min_ev_filter :
  (forall db now rq h l m docs,
      resolve hours_ahead_param (rq_hours_ahead rq) = Some h ->
      resolve limit_param (rq_limit rq) = Some l ->
      rq_min_ev rq = Some m ->
      db (odds_query now h l) = inr docs ->
      exists out,
        outcome db (api_odds now rq) = Returned out /\
        (forall d, In d docs ->
           ev_percentage (to_dict d) = None \/
           (exists e, ev_percentage (to_dict d) = Some e /\ PrimFloat.ltb e m = true) ->
           ~ In (render d) out) /\
        (forall o, In o out ->
           exists e, ev_percentage o = Some e /\ PrimFloat.ltb e m = false)) /\
  ev_percentage (to_dict Sample.d1) = Some 3%float /\
  ev_percentage (to_dict Sample.d2) = Some 7%float /\
  outcome (Sample.db [Sample.d1; Sample.d2])
          (api_odds 0 (Sample.request None None (Some 5%float) None None)) =
  Returned [render Sample.d2].
Proof.
  split; [| repeat split; reflexivity].
  intros db now rq h l m docs Hh Hl Hm Hdb.
  eexists; split; [apply (outcome_api_odds db now rq h l docs Hh Hl Hdb) |].
  assert (Hout : forall o,
             In o (firstn (capacity l)
                     (map render
                        (filter (keeps (rq_bookmaker rq) (rq_team rq) (rq_min_ev rq))
                           docs))) ->
             exists e, ev_percentage o = Some e /\ PrimFloat.ltb e m = false).
  { intros o Ho. apply In_firstn_In, in_map_iff in Ho.
    destruct Ho as (doc & <- & Hdoc). apply filter_In in Hdoc.
    destruct Hdoc as [_ Hkeep]. exact (keeps_min_ev _ _ _ _ _ Hkeep Hm). }
  split; [| exact Hout].
  intros d _ Hbad Hin. destruct (Hout _ Hin) as (e & He & Hlt). cbn in He.
  destruct Hbad as [Hnone | (e' & He' & Hlt')]; congruence.
Qed.

Lemma C7_min_ev_filter_witness :
  exists out,
    outcome (Sample.db [Sample.d3; Sample.d2])
            (api_odds 0 (Sample.request None None (Some 5%float) None None)) =
    Returned out /\
    (forall d, In d [Sample.d3; Sample.d2] ->
       ev_percentage (to_dict d) = None \/
       (exists e, ev_percentage (to_dict d) = Some e /\ PrimFloat.ltb e 5 = true) ->
       ~ In (render d) out) /\
    (forall o, In o out ->
       exists e, ev_percentage o = Some e /\ PrimFloat.ltb e 5 = false).
Proof.
  apply (proj1 C7_min_ev_filter (Sample.db [Sample.d3; Sample.d2]) 0
           (Sample.request None None (Some 5%float) None None) 48 100 5%float
           [Sample.d3; Sample.d2]); reflexivity.
Defined.

(** ** Store access *)

(** C8: a valid request issues exactly one query.  [get_odds] asks for the
    rows of collection [odds] with [commence_time > now] and
    [commence_time <= now + hours_ahead] hours (3600000000 microseconds
    each), ascending, capped at [limit * 5]; [get_upcoming_games] asks for
    the same range and order with the fixed cap 500. *)
Theorem C8_one_range_query :
  (forall db now rq h l,
      resolve hours_ahead_param (rq_hours_ahead rq) = Some h ->
      resolve limit_param (rq_limit rq) = Some l ->
      issued db (api_odds now rq) =
      [ {| q_collection := "odds";
           q_filters := [ mkFilter "commence_time" OpGt now;
                          mkFilter "commence_time" OpLe (now + h * 3600000000) ];
           q_order := Some ("commence_time", ASCENDING);
           q_limit := Some (l * 5) |} ]) /\
  (forall db now raw h,
      resolve hours_ahead_param raw = Some h ->
      issued db (api_games now raw) =
      [ {| q_collection := "odds";
           q_filters := [ mkFilter "commence_time" OpGt now;
                          mkFilter "commence_time" OpLe (now + h * 3600000000) ];
           q_order := Some ("commence_time", ASCENDING);
           q_limit := Some 500 |} ]) /\
  (forall now h l d,
      (row_matches (odds_query now h l) d = true <->
       exists t, instant (commence_time (to_dict d)) = Some t /\
                 now < t <= now + h * 3600000000) /\
      (row_matches (games_query now h) d = true <->
       exists t, instant (commence_time (to_dict d)) = Some t /\
                 now < t <= now + h * 3600000000)).
Proof.
  assert (Hus : forall h, timedelta_hours h = h * 3600000000)
    by (intros h; unfold timedelta_hours; lia).
  split; [| split].
  - intros db now rq h l Hh Hl. unfold issued.
    rewrite (api_odds_valid now rq h l Hh Hl), run_get_odds. cbn [snd].
    unfold odds_query, limit_, order_by, where_, collection. cbn. rewrite Hus.
    reflexivity.
  - intros db now raw h Hh. unfold issued, api_games.
    rewrite Hh, run_get_upcoming_games. cbn [snd].
    unfold games_query, limit_, order_by, where_, collection. cbn. rewrite Hus.
    reflexivity.
  - intros now h l d.
    rewrite (row_matches_games_query now h l d), <- Hus.
    split; apply row_matches_odds_query.
Qed.

Lemma C8_one_range_query_witness :
  issued (Sample.db [Sample.d1])
         (api_odds 0 (Sample.request None None None (Some 24) (Some 10))) =
  [ {| q_collection := "odds";
       q_filters := [ mkFilter "commence_time" OpGt 0;
                      mkFilter "commence_time" OpLe (0 + 24 * 3600000000) ];
       q_order := Some ("commence_time", ASCENDING);
       q_limit := Some (10 * 5) |} ] /\
  issued (Sample.db [Sample.d1]) (api_games 0 (Some 24)) =
  [ {| q_collection := "odds";
       q_filters := [ mkFilter "commence_time" OpGt 0;
                      mkFilter "commence_time" OpLe (0 + 24 * 3600000000) ];
       q_order := Some ("commence_time", ASCENDING);
       q_limit := Some 500 |} ].
Proof.
  destruct C8_one_range_query as (Hodds & Hgames & _).
  split.
  - apply Hodds; reflexivity.
  - apply Hgames; reflexivity.
Defined.

(** ** Failure of the store *)

(** C3, on the code: when the store query fails with text [msg], [get_odds]
    answers with [HTTPException] 500 whose detail ends with [msg];
    [get_upcoming_games] does not answer at all: the store's exception leaves
    the handler uncaught.  Neither produces a result list. *)
Theorem C3_store_failure :
  forall msg now b t m,
    outcome (Sample.broken msg)
            (api_odds now (Sample.request b t m None None)) =
    Responded 500 (String.append query_failed msg) /\
    outcome (Sample.broken msg) (api_games now None) = Raised (StoreError msg) /\
    (forall status_code detail,
        outcome (Sample.broken msg) (api_games now None) <>
        Responded status_code detail).
Proof.
  intros msg now b t m. split; [reflexivity | split; [reflexivity |]].
  intros status_code detail. discriminate.
Qed.

(** ** Requests and the heap *)

Lemma run_bind {A B : Type} (db : Gateway) (p : Prog A) (f : A -> Prog B) :
  run db (bind p f) =
  match run db p with
  | (Returned a, tr) => let (o, tr') := run db (f a) in (o, tr ++ tr')
  | (Raised e, tr) => (Raised e, tr)
  | (Responded s d, tr) => (Responded s d, tr)
  | (Rejected, tr) => (Rejected, tr)
  end.
Proof.
  induction p as [a | e | s d | | q k IH]; cbn; try reflexivity.
  - destruct (run db (f a)); reflexivity.
  - rewrite IH. destruct (run db (k (db q))) as [[a | e | s d |] tr]; try reflexivity.
    destruct (run db (f a)); reflexivity.
Qed.

Lemma nth_error_last (hp : Heap) (o : PyObj) :
  nth_error (hp ++ [o]) (List.length hp) = Some o.
Proof. induction hp as [| x hp IH]; [reflexivity | exact IH]. Qed.

Lemma replace_at_last (hp : Heap) (o o' : PyObj) :
  replace_at (List.length hp) o' (hp ++ [o]) = hp ++ [o'].
Proof.
  induction hp as [| x hp IH]; cbn; [reflexivity | rewrite IH; reflexivity].
Qed.

Lemma firstn_extended (hp : Heap) (o : PyObj) :
  firstn (List.length hp) (hp ++ [o]) = hp.
Proof.
  rewrite firstn_app, Nat.sub_diag, firstn_all. cbn. apply app_nil_r.
Qed.

(** On the heap the loop of [get_odds] changes only the list it was given,
    into what the loop on values computes. *)
Lemma odds_loop_heap_spec b t m limit docs :
  forall (hp : Heap) (items : list OddsRecord),
    odds_loop_heap b t m limit docs (List.length hp) (hp ++ [PyList items]) =
    Ret (tt, hp ++ [PyList (odds_loop b t m limit docs items)]).
Proof.
  induction docs as [| doc rest IH]; intros hp items; cbn [odds_loop_heap odds_loop].
  - reflexivity.
  - destruct (skip_bookmaker b (to_dict doc)); [apply IH |].
    destruct (skip_team t (to_dict doc)); [apply IH |].
    destruct (skip_ev m (to_dict doc)); [apply IH |].
    unfold bind_req at 1. unfold list_append. rewrite nth_error_last.
    cbn [bind fst snd]. rewrite replace_at_last.
    unfold bind_req at 1. unfold list_len, bind_req, list_items.
    rewrite nth_error_last. cbn [bind fst snd unit_req].
    destruct (Z.of_nat (List.length (items ++ [render doc])) >=? limit);
      [reflexivity | apply IH].
Qed.

Lemma run_get_odds_heap (db : Gateway) now b t m h l (hp : Heap) :
  run db (get_odds_heap now b t m h l hp) =
  (match db (odds_query now h l) with
   | inl e => Responded 500 (String.append query_failed (str e))
   | inr docs =>
       Returned (odds_loop b t m l docs [],
                 hp ++ [PyList (odds_loop b t m l docs [])])
   end, [odds_query now h l]).
Proof.
  unfold get_odds_heap, lift, stream. unfold bind_req at 1. cbn.
  destruct (db (odds_query now h l)) as [e | docs]; cbn; [reflexivity |].
  rewrite odds_loop_heap_spec. cbn [bind fst snd].
  unfold list_items. rewrite nth_error_last. reflexivity.
Qed.

Lemma games_loop_heap_spec docs :
  forall (hp : Heap) (games : Dict.t GameView),
    games_loop_heap docs (List.length hp) (hp ++ [PyDict games]) =
    match games_loop docs games with
    | inl e => Throw e
    | inr games' => Ret (tt, hp ++ [PyDict games'])
    end.
Proof.
  induction docs as [| doc rest IH]; intros hp games; cbn [games_loop_heap games_loop].
  - reflexivity.
  - unfold bind_req at 1. unfold dict_games. rewrite nth_error_last.
    cbn [bind fst snd].
    destruct (games_step games doc) as [e | games']; [reflexivity |].
    unfold bind_req at 1. unfold dict_update. cbn [bind fst snd].
    rewrite replace_at_last. apply IH.
Qed.

Lemma run_get_upcoming_games_heap (db : Gateway) now h (hp : Heap) :
  run db (get_upcoming_games_heap now h hp) =
  (match db (games_query now h) with
   | inl e => Raised e
   | inr docs =>
       match games_loop docs Dict.empty with
       | inl e => Raised e
       | inr games => Returned (Dict.values games, hp ++ [PyDict games])
       end
   end, [games_query now h]).
Proof.
  unfold get_upcoming_games_heap, lift, stream. unfold bind_req at 1. cbn.
  destruct (db (games_query now h)) as [e | docs]; cbn; [reflexivity |].
  rewrite games_loop_heap_spec.
  destruct (games_loop docs Dict.empty) as [e | games]; cbn; [reflexivity |].
  unfold bind_req, dict_games. rewrite nth_error_last. reflexivity.
Qed.

(** The handler on the heap answers and asks the store as the handler on
    values does; a returned list lies on the heap as one new object. *)
Lemma run_api_odds_heap (db : Gateway) now rq (hp : Heap) :
  run db (api_odds_heap now rq hp) =
  (match outcome db (api_odds now rq) with
   | Returned out => Returned (out, hp ++ [PyList out])
   | Raised e => Raised e
   | Responded s d => Responded s d
   | Rejected => Rejected
   end, issued db (api_odds now rq)).
Proof.
  unfold outcome, issued, api_odds_heap, api_odds.
  destruct (resolve hours_ahead_param (rq_hours_ahead rq)) as [h |]; [| reflexivity].
  destruct (resolve limit_param (rq_limit rq)) as [l |]; [| reflexivity].
  rewrite run_get_odds_heap, run_get_odds. cbn [fst snd].
  destruct (db (odds_query now h l)); reflexivity.
Qed.

Lemma run_api_games_heap (db : Gateway) now raw (hp : Heap) :
  exists created,
    run db (api_games_heap now raw hp) =
    (match outcome db (api_games now raw) with
     | Returned views => Returned (views, hp ++ [created])
     | Raised e => Raised e
     | Responded s d => Responded s d
     | Rejected => Rejected
     end, issued db (api_games now raw)).
Proof.
  unfold outcome, issued, api_games_heap, api_games.
  destruct (resolve hours_ahead_param raw) as [h |];
    [| exists (PyList []); reflexivity].
  rewrite run_get_upcoming_games_heap, run_get_upcoming_games. cbn [fst snd].
  destruct (db (games_query now h)) as [e | docs]; [exists (PyList []); reflexivity |].
  destruct (games_loop docs Dict.empty) as [e | games];
    [exists (PyList []); reflexivity | exists (PyDict games); reflexivity].
Qed.

(** A handler whose answer does not depend on the heap answers alike when it
    is run twice in a row. *)
Lemma twice_answers_alike {A : Type} (db : Gateway) (r : Req A) :
  (forall hp1 hp2, answer (outcome db (r hp1)) = answer (outcome db (r hp2))) ->
  forall hp first second hp',
    outcome db (twice r hp) = Returned (first, second, hp') ->
    first = second.
Proof.
  intros Hsame hp first second hp'. unfold outcome, twice.
  unfold bind_req at 1. rewrite run_bind.
  pose proof (Hsame hp) as Hhp. unfold outcome in Hhp.
  destruct (run db (r hp)) as [[[a hp1] | e | s d |] tr]; cbn [fst snd];
    try discriminate.
  unfold bind_req at 1. rewrite run_bind.
  specialize (Hhp hp1). cbn [fst answer] in Hhp.
  destruct (run db (r hp1)) as [[[b hp2] | e | s d |] tr']; cbn [fst snd answer] in *;
    try discriminate.
  unfold unit_req. cbn. intros [= <- <- _]. congruence.
Qed.

(** C9: a request shares no state with another.  The answer of either
    handler is the same on every heap, so it is determined by the current
    time, the parameters and the store's answer; a handler leaves every
    object that existed before it unchanged (it writes only to the list or
    dictionary it created); and the same request handled twice in a row,
    the second time on the heap the first one left, returns the same output
    twice. *)
Theorem C9_requests_share_no_state :
  (forall db now rq hp1 hp2,
      answer (outcome db (api_odds_heap now rq hp1)) =
      answer (outcome db (api_odds_heap now rq hp2))) /\
  (forall db now rq hp out hp',
      outcome db (api_odds_heap now rq hp) = Returned (out, hp') ->
      firstn (List.length hp) hp' = hp) /\
  (forall db now rq hp first second hp',
      outcome db (twice (api_odds_heap now rq) hp) = Returned (first, second, hp') ->
      first = second) /\
  (forall db now raw hp1 hp2,
      answer (outcome db (api_games_heap now raw hp1)) =
      answer (outcome db (api_games_heap now raw hp2))) /\
  (forall db now raw hp views hp',
      outcome db (api_games_heap now raw hp) = Returned (views, hp') ->
      firstn (List.length hp) hp' = hp) /\
  (forall db now raw hp first second hp',
      outcome db (twice (api_games_heap now raw) hp) = Returned (first, second, hp') ->
      first = second) /\
  (forall db now rq raw hp,
      answer (outcome db (api_odds_heap now rq hp)) = outcome db (api_odds now rq) /\
      answer (outcome db (api_games_heap now raw hp)) = outcome db (api_games now raw)).
Proof.
  assert (Hodds : forall db now rq hp,
             answer (outcome db (api_odds_heap now rq hp)) =
             outcome db (api_odds now rq)).
  { intros db now rq hp. unfold outcome at 1. rewrite run_api_odds_heap. cbn [fst].
    destruct (outcome db (api_odds now rq)); reflexivity. }
  assert (Hgames : forall db now raw hp,
             answer (outcome db (api_games_heap now raw hp)) =
             outcome db (api_games now raw)).
  { intros db now raw hp. unfold outcome at 1.
    destruct (run_api_games_heap db now raw hp) as [created ->]. cbn [fst].
    destruct (outcome db (api_games now raw)); reflexivity. }
  split; [| split; [| split; [| split; [| split; [| split]]]]].
  - intros db now rq hp1 hp2. rewrite !Hodds. reflexivity.
  - intros db now rq hp out hp'. unfold outcome. rewrite run_api_odds_heap. cbn [fst].
    destruct (outcome db (api_odds now rq)); try discriminate.
    intros [= _ <-]. apply firstn_extended.
  - intros db now rq. apply twice_answers_alike.
    intros hp1 hp2. rewrite !Hodds. reflexivity.
  - intros db now raw hp1 hp2. rewrite !Hgames. reflexivity.
  - intros db now raw hp views hp'. unfold outcome.
    destruct (run_api_games_heap db now raw hp) as [created ->]. cbn [fst].
    destruct (outcome db (api_games now raw)); try discriminate.
    intros [= _ <-]. apply firstn_extended.
  - intros db now raw. apply twice_answers_alike.
    intros hp1 hp2. rewrite !Hgames. reflexivity.
  - intros db now rq raw hp. split; [apply Hodds | apply Hgames].
Qed.

Lemma C9_requests_share_no_state_witness :
  firstn 1 [PyList [render Sample.d3];
            PyList [render Sample.d1; render Sample.d2]] =
  [PyList [render Sample.d3]] /\
  [render Sample.d1; render Sample.d2] = [render Sample.d1; render Sample.d2].
Proof.
  destruct C9_requests_share_no_state as (_ & Hframe & Htwice & _).
  split.
  - apply (Hframe (Sample.db [Sample.d1; Sample.d2]) 0
             (Sample.request None None None None None)
             [PyList [render Sample.d3]]
             [render Sample.d1; render Sample.d2]).
    reflexivity.
  - apply (Htwice (Sample.db [Sample.d1; Sample.d2]) 0
             (Sample.request None None None None None)
             [PyList [render Sample.d3]] _ _
             [PyList [render Sample.d3];
              PyList [render Sample.d1; render Sample.d2];
              PyList [render Sample.d1; render Sample.d2]]).
    reflexivity.
Defined.

(** ** First occurrences *)

Section FirstBy.

Context {A : Type} (key : A -> string).

Lemma first_by_incl (l : list A) (x : A) : In x (first_by key l) -> In x l.
Proof.
  induction l as [| a l IH]; cbn; [tauto |].
  intros [-> | H]; [left; reflexivity | right].
  apply filter_In in H. apply IH, H.
Qed.

Lemma seen_true (k : string) (l : list A) :
  seen key k l = true <-> exists x, In x l /\ key x = k.
Proof.
  unfold seen. rewrite existsb_exists.
  split; intros (x & Hx & Hk); exists x; (split; [exact Hx |]);
    apply String.eqb_eq; exact Hk.
Qed.

Lemma seen_filter_other (k k' : string) (l : list A) :
  k <> k' ->
  seen key k (filter (fun y => negb (key y =? k')%string) l) = seen key k l.
Proof.
  intros Hne. unfold seen. induction l as [| a l IH]; cbn; [reflexivity |].
  destruct (String.eqb_spec (key a) k') as [E | E]; cbn.
  - destruct (String.eqb_spec (key a) k); [congruence | exact IH].
  - rewrite IH. reflexivity.
Qed.

Lemma seen_first_by (k : string) (l : list A) :
  seen key k (first_by key l) = seen key k l.
Proof.
  induction l as [| a l IH]; [reflexivity |].
  cbn [first_by]. unfold seen. cbn [existsb].
  destruct (String.eqb_spec (key a) k) as [E | E]; cbn [orb]; [reflexivity |].
  fold (seen key k (filter (fun y => negb (key y =? key a)%string) (first_by key l))).
  fold (seen key k l).
  rewrite seen_filter_other by congruence. exact IH.
Qed.

Lemma first_by_snoc (l : list A) (x : A) :
  first_by key (l ++ [x]) =
  if seen key (key x) l then first_by key l else first_by key l ++ [x].
Proof.
  induction l as [| a l IH]; [reflexivity |].
  cbn [app first_by]. rewrite IH.
  change (seen key (key x) (a :: l))
    with ((key a =? key x)%string || seen key (key x) l).
  destruct (String.eqb_spec (key a) (key x)) as [E | E]; cbn [orb].
  - destruct (seen key (key x) l); [reflexivity |].
    rewrite filter_app; cbn [filter].
    destruct (String.eqb_spec (key x) (key a)); [| congruence].
    cbn [negb]. rewrite app_nil_r. reflexivity.
  - destruct (seen key (key x) l); [reflexivity |].
    rewrite filter_app; cbn [filter].
    destruct (String.eqb_spec (key x) (key a)); [congruence |].
    reflexivity.
Qed.

Lemma NoDup_map_filter (p : A -> bool) (l : list A) :
  NoDup (map key l) -> NoDup (map key (filter p l)).
Proof.
  induction l as [| a l IH]; cbn; [tauto |].
  intros H. apply NoDup_cons_iff in H. destruct H as [Hnotin Hnd].
  destruct (p a); cbn; [| apply IH, Hnd].
  constructor; [| apply IH, Hnd].
  intros Hin. apply Hnotin. apply in_map_iff in Hin. destruct Hin as (y & Hy & Hin).
  apply in_map_iff. exists y. split; [exact Hy |]. apply filter_In in Hin. tauto.
Qed.

Lemma first_by_NoDup (l : list A) : NoDup (map key (first_by key l)).
Proof.
  induction l as [| a l IH]; cbn; constructor.
  - intros Hin. apply in_map_iff in Hin. destruct Hin as (y & Hy & Hin).
    apply filter_In in Hin. destruct Hin as [_ Hne].
    rewrite Hy, String.eqb_refl in Hne. discriminate.
  - apply NoDup_map_filter, IH.
Qed.

Lemma first_by_keys (l : list A) (k : string) :
  In k (map key (first_by key l)) <-> In k (map key l).
Proof.
  assert (H : forall l', In k (map key l') <-> seen key k l' = true).
  { intros l'. rewrite seen_true, in_map_iff.
    split; intros (x & H1 & H2); exists x; tauto. }
  rewrite !H, seen_first_by. reflexivity.
Qed.

Lemma map_filter_other (k : string) (l : list A) :
  map key (filter (fun y => negb (key y =? k)%string) l) =
  filter (fun s => negb (s =? k)%string) (map key l).
Proof.
  induction l as [| a l IH]; cbn; [reflexivity |].
  destruct (key a =? k)%string; cbn; rewrite IH; reflexivity.
Qed.

Lemma map_first_by (l : list A) :
  map key (first_by key l) = first_seen (map key l).
Proof.
  unfold first_seen. induction l as [| a l IH]; cbn; [reflexivity |].
  rewrite map_filter_other, IH. reflexivity.
Qed.

(** A first occurrence heads the rows that share its key. *)
Lemma first_by_heads (l : list A) (x : A) :
  In x (first_by key l) ->
  exists rest, filter (fun y => (key y =? key x)%string) l = x :: rest.
Proof.
  induction l as [| a l IH]; cbn; [tauto |].
  intros [-> | H].
  - rewrite String.eqb_refl. eexists; reflexivity.
  - apply filter_In in H. destruct H as [H Hne].
    destruct (String.eqb_spec (key x) (key a)) as [E | E]; [discriminate |].
    destruct (String.eqb_spec (key a) (key x)) as [E' | E']; [congruence |].
    apply IH, H.
Qed.

End FirstBy.

(** ** Dictionaries *)

Section DictFacts.

Context {V : Type}.

Lemma contains_get (d : Dict.t V) (k : string) :
  Dict.contains k d = true -> exists v, Dict.get k d = Some v.
Proof.
  induction d as [| [k' v'] d IH]; cbn; [discriminate |].
  destruct (k' =? k)%string; [intros _; exists v'; reflexivity | exact IH].
Qed.

Lemma get_set_same (d : Dict.t V) (k : string) (v : V) :
  Dict.get k (Dict.set k v d) = Some v.
Proof.
  induction d as [| [k' v'] d IH]; cbn.
  - rewrite String.eqb_refl; reflexivity.
  - destruct (k' =? k)%string eqn:E; cbn; rewrite E; [reflexivity | exact IH].
Qed.

Lemma set_fresh (d : Dict.t V) (k : string) (v : V) :
  Dict.contains k d = false -> Dict.set k v d = d ++ [(k, v)].
Proof.
  induction d as [| [k' v'] d IH]; cbn; [reflexivity |].
  destruct (k' =? k)%string; [discriminate |].
  intros H. rewrite (IH H). reflexivity.
Qed.

Lemma get_fresh_last (d : Dict.t V) (k : string) (v : V) :
  Dict.contains k d = false -> Dict.get k (d ++ [(k, v)]) = Some v.
Proof.
  intros H. rewrite <- (set_fresh d k v H). apply get_set_same.
Qed.

Lemma set_fresh_last (d : Dict.t V) (k : string) (v0 v : V) :
  Dict.contains k d = false ->
  Dict.set k v (d ++ [(k, v0)]) = d ++ [(k, v)].
Proof.
  induction d as [| [k' v'] d IH]; cbn.
  - rewrite String.eqb_refl; reflexivity.
  - destruct (k' =? k)%string; [discriminate |].
    intros H. rewrite (IH H). reflexivity.
Qed.

Context {A : Type} (key : A -> string).

Lemma contains_tabulate (f : A -> V) (xs : list A) (k : string) :
  Dict.contains k (tabulate key f xs) = seen key k xs.
Proof.
  unfold seen. induction xs as [| x xs IH]; cbn; [reflexivity |].
  destruct (key x =? k)%string; [reflexivity | exact IH].
Qed.

Lemma tabulate_ext (f g : A -> V) (xs : list A) :
  (forall x, In x xs -> f x = g x) -> tabulate key f xs = tabulate key g xs.
Proof.
  intros H. apply map_ext_in. intros x Hx. rewrite (H x Hx). reflexivity.
Qed.

Lemma tabulate_app (f : A -> V) (xs ys : list A) :
  tabulate key f (xs ++ ys) = tabulate key f xs ++ tabulate key f ys.
Proof. apply map_app. Qed.

(** Replacing the value under a key that is present. *)
Lemma modify_tabulate (f : A -> V) (h : V -> V) (k : string) (xs : list A) :
  NoDup (map key xs) ->
  forall v, Dict.get k (tabulate key f xs) = Some v ->
  Dict.set k (h v) (tabulate key f xs) =
  tabulate key (fun x => if (key x =? k)%string then h (f x) else f x) xs.
Proof.
  unfold tabulate.
  induction xs as [| x xs IH]; cbn; [discriminate |].
  intros Hnd v. apply NoDup_cons_iff in Hnd. destruct Hnd as [Hnotin Hnd].
  destruct (String.eqb_spec (key x) k) as [E | E].
  - intros [= <-]. f_equal. apply map_ext_in. intros y Hy.
    destruct (String.eqb_spec (key y) k) as [E' | E']; [| reflexivity].
    destruct Hnotin. rewrite E, <- E'. apply in_map, Hy.
  - intros Hget. rewrite (IH Hnd v Hget). reflexivity.
Qed.

End DictFacts.

(** ** The aggregation loop refines the grouping *)

Lemma filter_snoc {A : Type} (p : A -> bool) (l : list A) (x : A) :
  filter p (l ++ [x]) = if p x then filter p l ++ [x] else filter p l.
Proof.
  rewrite filter_app; cbn. destruct (p x); [reflexivity | apply app_nil_r].
Qed.

Lemma seen_filter_nil {A : Type} (key : A -> string) (k : string) (l : list A) :
  seen key k l = false -> filter (fun y => (key y =? k)%string) l = [].
Proof.
  unfold seen. induction l as [| a l IH]; cbn; [reflexivity |].
  destruct (key a =? k)%string; [discriminate | exact IH].
Qed.

Lemma seen_map {A : Type} (key : A -> string) (k : string) (l : list A) :
  seen (fun s : string => s) k (map key l) = seen key k l.
Proof.
  unfold seen. induction l as [| a l IH]; cbn; [reflexivity |].
  rewrite IH. reflexivity.
Qed.

Lemma add_line_bookmakers_of (rows : list Document) (d : Document) :
  add_line (doc_bookmaker d) (doc_line d) (bookmakers_of rows) =
  bookmakers_of (rows ++ [d]).
Proof.
  unfold add_line, bookmakers_of.
  set (b := doc_bookmaker d).
  set (f := fun b' : string => map doc_line (filter (same_bookmaker b') rows)).
  set (f' := fun b' : string => map doc_line (filter (same_bookmaker b') (rows ++ [d]))).
  set (xs := first_seen (map doc_bookmaker rows)).
  assert (Hxs : seen (fun s : string => s) b xs = seen doc_bookmaker b rows).
  { unfold xs. rewrite <- (map_first_by doc_bookmaker rows), seen_map.
    apply seen_first_by. }
  assert (Hf' : forall b', f' b' = if (b =? b')%string then f b' ++ [doc_line d] else f b').
  { intros b'. unfold f', f. rewrite filter_snoc. unfold same_bookmaker at 1. fold b.
    destruct (b =? b')%string; [| reflexivity]. rewrite map_app. reflexivity. }
  rewrite map_app. cbn [map]. fold b. unfold first_seen.
  rewrite (first_by_snoc (fun s : string => s)), seen_map.
  fold (first_seen (map doc_bookmaker rows)). fold xs. rewrite contains_tabulate, Hxs.
  destruct (seen doc_bookmaker b rows) eqn:Hseen; cbn [negb].
  - destruct (contains_get (tabulate (fun s : string => s) f xs) b) as [v Hv].
    { rewrite contains_tabulate, Hxs. reflexivity. }
    rewrite Hv.
    rewrite (modify_tabulate (fun s : string => s) f (fun es => es ++ [doc_line d]) b xs).
    + apply tabulate_ext. intros b' _. rewrite Hf', String.eqb_sym. reflexivity.
    + exact (first_by_NoDup (fun s : string => s) (map doc_bookmaker rows)).
    + exact Hv.
  - assert (Hfresh : Dict.contains b (tabulate (fun s : string => s) f xs) = false).
    { rewrite contains_tabulate, Hxs. reflexivity. }
    rewrite (set_fresh _ _ _ Hfresh), (get_fresh_last _ _ _ Hfresh),
      (set_fresh_last _ _ _ _ Hfresh).
    rewrite tabulate_app. cbn [tabulate map app]. f_equal.
    + apply tabulate_ext. intros b' Hb'. rewrite Hf'.
      destruct (String.eqb_spec b b') as [E | E]; [| reflexivity].
      assert (seen (fun s : string => s) b xs = true).
      { apply seen_true. exists b'. split; [exact Hb' | congruence]. }
      congruence.
    + rewrite Hf', String.eqb_refl. unfold f, same_bookmaker.
      rewrite (seen_filter_nil doc_bookmaker b rows Hseen). reflexivity.
Qed.

(** The two subscripts on the bookmakers never raise. *)
Lemma games_step_add_line (games_dict : Dict.t GameView) (doc : Document) :
  games_step games_dict doc =
  let gid := doc_game doc in
  let games_dict :=
    if negb (Dict.contains gid games_dict)
    then Dict.set gid (new_game (to_dict doc)) games_dict
    else games_dict in
  match Dict.get gid games_dict with
  | Some game =>
      inr (Dict.set gid
             (with_bookmakers game
                (add_line (doc_bookmaker doc) (doc_line doc) (gv_bookmakers game)))
             games_dict)
  | None => inl (KeyError gid)
  end.
Proof.
  unfold games_step, subscript, add_line, doc_game, doc_bookmaker, doc_line. cbn zeta.
  destruct (Dict.get (game_id (to_dict doc)) _) as [game |]; [| reflexivity].
  destruct (Dict.contains (bookmaker (to_dict doc)) (gv_bookmakers game)) eqn:Hc;
    cbn [negb].
  - destruct (contains_get _ _ Hc) as [es Hes]. rewrite Hes. reflexivity.
  - rewrite get_set_same. reflexivity.
Qed.

Lemma games_step_spec (docs : list Document) (d : Document) :
  games_step (games_spec docs) d = inr (games_spec (docs ++ [d])).
Proof.
  rewrite games_step_add_line. cbn zeta. unfold games_spec.
  set (gid := doc_game d). set (G := first_by doc_game docs).
  assert (Hview : forall x, In x G ->
            view_of (docs ++ [d]) x =
            if (doc_game x =? gid)%string
            then with_bookmakers (view_of docs x)
                   (add_line (doc_bookmaker d) (doc_line d)
                      (gv_bookmakers (view_of docs x)))
            else view_of docs x).
  { intros x _. unfold view_of. rewrite filter_snoc. unfold same_game at 1. fold gid.
    rewrite (String.eqb_sym gid).
    destruct (doc_game x =? gid)%string; [| reflexivity].
    cbn [gv_bookmakers with_bookmakers]. rewrite add_line_bookmakers_of. reflexivity. }
  assert (HG : seen doc_game gid G = seen doc_game gid docs)
    by apply seen_first_by.
  rewrite first_by_snoc. fold gid G. rewrite contains_tabulate, HG.
  destruct (seen doc_game gid docs) eqn:Hseen; cbn [negb].
  - destruct (contains_get (tabulate doc_game (view_of docs) G) gid) as [g Hg].
    { rewrite contains_tabulate. exact HG. }
    rewrite Hg. f_equal.
    rewrite (modify_tabulate doc_game (view_of docs)
               (fun g => with_bookmakers g
                           (add_line (doc_bookmaker d) (doc_line d) (gv_bookmakers g)))
               gid G (first_by_NoDup doc_game docs) g Hg).
    apply tabulate_ext. intros x Hx. rewrite (Hview x Hx). reflexivity.
  - assert (Hfresh : Dict.contains gid (tabulate doc_game (view_of docs) G) = false).
    { rewrite contains_tabulate. exact HG. }
    rewrite (set_fresh _ _ _ Hfresh), (get_fresh_last _ _ _ Hfresh),
      (set_fresh_last _ _ _ _ Hfresh).
    f_equal. rewrite tabulate_app. cbn [tabulate map app]. f_equal.
    + apply tabulate_ext. intros x Hx. rewrite (Hview x Hx).
      destruct (String.eqb_spec (doc_game x) gid) as [E | E]; [| reflexivity].
      assert (seen doc_game gid docs = true).
      { apply seen_true. exists x. split; [apply (first_by_incl doc_game), Hx | exact E]. }
      congruence.
    + fold gid. do 2 f_equal. unfold view_of. fold gid.
      rewrite filter_snoc. unfold same_game at 1. fold gid. rewrite String.eqb_refl.
      unfold same_game. rewrite (seen_filter_nil doc_game gid docs Hseen).
      cbn [app]. f_equal. exact (add_line_bookmakers_of [] d).
Qed.

Lemma games_loop_app (docs1 docs2 : list Document) (games_dict : Dict.t GameView) :
  games_loop (docs1 ++ docs2) games_dict =
  match games_loop docs1 games_dict with
  | inl e => inl e
  | inr games_dict => games_loop docs2 games_dict
  end.
Proof.
  revert games_dict. induction docs1 as [| d docs1 IH]; intros games_dict; cbn;
    [reflexivity |].
  destruct (games_step games_dict d); [reflexivity | apply IH].
Qed.

(** The loop never raises and builds the grouping. *)
Lemma games_loop_spec (docs : list Document) :
  games_loop docs Dict.empty = inr (games_spec docs).
Proof.
  induction docs as [| d docs IH] using rev_ind; [reflexivity |].
  rewrite games_loop_app, IH. cbn [games_loop].
  rewrite games_step_spec. reflexivity.
Qed.

Lemma outcome_api_games db now raw h docs :
  resolve hours_ahead_param raw = Some h ->
  db (games_query now h) = inr docs ->
  outcome db (api_games now raw) =
  Returned (map (view_of docs) (first_by doc_game docs)).
Proof.
  intros Hh Hdb. unfold outcome, api_games.
  rewrite Hh, run_get_upcoming_games, Hdb, games_loop_spec. cbn [fst].
  unfold Dict.values, games_spec, tabulate. rewrite map_map. reflexivity.
Qed.

Lemma keys_bookmakers_of (rows : list Document) :
  Dict.keys (bookmakers_of rows) = first_seen (map doc_bookmaker rows).
Proof.
  unfold Dict.keys, bookmakers_of, tabulate. rewrite map_map. cbn [fst]. apply map_id.
Qed.

(** ** The aggregation *)

(** C2: the games handler returns one view per distinct game id of the
    retrieved rows (rows with the fields of the declared model), in order of
    first occurrence; the bookmaker keys of a view are the distinct
    bookmakers of the rows of its game; the entries under a bookmaker are
    the team, point spread and odds of its rows, in arrival order; and a
    view carries the teams of the first row of its game and that row's
    commence time in text form: the ISO text of a datetime, the local ISO
    text of a timestamp, any other value as it is. *)
Theorem C2_games_grouped db now raw h docs :
  resolve hours_ahead_param raw = Some h ->
  db (games_query now h) = inr docs ->
  exists views,
    outcome db (api_games now raw) = Returned views /\
    map gv_game_id views =
    first_seen (map (fun d => game_id (to_dict d)) docs) /\
    NoDup (map gv_game_id views) /\
    (forall gid, In gid (map gv_game_id views) <->
                 exists d, In d docs /\ game_id (to_dict d) = gid) /\
    forall v, In v views ->
      let rows :=
        filter (fun d => (game_id (to_dict d) =? gv_game_id v)%string) docs in
      Dict.keys (gv_bookmakers v) =
      first_seen (map (fun d => bookmaker (to_dict d)) rows) /\
      NoDup (Dict.keys (gv_bookmakers v)) /\
      (forall b, In b (Dict.keys (gv_bookmakers v)) <->
                 exists d, In d docs /\ game_id (to_dict d) = gv_game_id v /\
                           bookmaker (to_dict d) = b) /\
      (forall b entries,
          In (b, entries) (gv_bookmakers v) ->
          entries =
          map (fun d => {| line_team := team (to_dict d);
                           line_point_spread := point_spread (to_dict d);
                           line_odds := odds (to_dict d) |})
              (filter (fun d => (bookmaker (to_dict d) =? b)%string) rows)) /\
      (exists first rest,
          rows = first :: rest /\
          gv_home_team v = home_team (to_dict first) /\
          gv_away_team v = away_team (to_dict first) /\
          gv_commence_time v =
          match commence_time (to_dict first) with
          | Datetime t => IsoText t
          | Stamp t => LocalIsoText t
          | IsoText t => IsoText t
          | LocalIsoText t => LocalIsoText t
          | Text s => Text s
          | Null => Null
          end).
Proof.
  intros Hh Hdb.
  exists (map (view_of docs) (first_by doc_game docs)).
  split; [apply (outcome_api_games db now raw h docs Hh Hdb) |].
  assert (Hids : map gv_game_id (map (view_of docs) (first_by doc_game docs)) =
                 map doc_game (first_by doc_game docs)).
  { rewrite map_map. apply map_ext. reflexivity. }
  rewrite Hids.
  split; [apply (map_first_by doc_game) |].
  split; [apply first_by_NoDup |].
  split.
  { intros gid. rewrite first_by_keys, in_map_iff.
    split; intros (d & H1 & H2); exists d; tauto. }
  intros v Hv rows. apply in_map_iff in Hv. destruct Hv as (seed & <- & Hseed).
  subst rows. cbn [view_of gv_game_id gv_bookmakers gv_home_team gv_away_team
                   gv_commence_time with_bookmakers new_game].
  fold (doc_game seed).
  change (fun d : Document => (game_id (to_dict d) =? doc_game seed)%string)
    with (same_game (doc_game seed)).
  change (fun d : Document => bookmaker (to_dict d)) with doc_bookmaker.
  set (rows := filter (same_game (doc_game seed)) docs).
  rewrite keys_bookmakers_of.
  split; [reflexivity |].
  split.
  { rewrite <- (map_id (first_seen (map doc_bookmaker rows))).
    apply (first_by_NoDup (fun s : string => s)). }
  split.
  { intros b. rewrite <- (map_id (first_seen (map doc_bookmaker rows))).
    unfold first_seen. rewrite (first_by_keys (fun s : string => s)), map_id, in_map_iff.
    split.
    - intros (d & Hb & Hd). apply filter_In in Hd. destruct Hd as [Hd Hg].
      exists d. split; [exact Hd | split; [| exact Hb]].
      apply String.eqb_eq, Hg.
    - intros (d & Hd & Hg & Hb). exists d. split; [exact Hb |].
      apply filter_In. split; [exact Hd |]. apply String.eqb_eq, Hg. }
  split.
  { intros b entries Hin. unfold bookmakers_of, tabulate in Hin.
    apply in_map_iff in Hin. destruct Hin as (b' & [= <- <-] & _). reflexivity. }
  destruct (first_by_heads doc_game docs seed Hseed) as [rest Hrest].
  exists seed, rest. split; [exact Hrest |].
  split; [reflexivity | split; [reflexivity |]].
  destruct (commence_time (to_dict seed)); reflexivity.
Qed.

Lemma C2_games_grouped_witness :
  exists views,
    outcome (Sample.db [Sample.d1; Sample.d2; Sample.d3; Sample.d4])
            (api_games 0 None) = Returned views /\
    map gv_game_id views = ["G1"; "G2"] /\
    map gv_commence_time views = [IsoText 7200000000; IsoText 10800000000] /\
    map (fun v => Dict.keys (gv_bookmakers v)) views = [["A"; "B"]; ["A"]] /\
    map (fun v => map (fun e => map line_odds (snd e)) (gv_bookmakers v)) views =
    [[[-110; -110]; [-105]]; [[100]]].
Proof.
  destruct (C2_games_grouped
              (Sample.db [Sample.d1; Sample.d2; Sample.d3; Sample.d4]) 0 None 48
              [Sample.d1; Sample.d2; Sample.d3; Sample.d4])
    as (views & Hout & Hids & _); [reflexivity | reflexivity |].
  exists views. split; [exact Hout |]. split; [exact Hids |].
  cbn in Hout. injection Hout as <-. repeat split; reflexivity.
Defined.

(** * Further properties of the handlers *)

(** ** The odds query *)

Lemma skip_bookmaker_falsy b data : truthy b = false -> skip_bookmaker b data = false.
Proof. unfold skip_bookmaker. destruct b; [intros ->; reflexivity | reflexivity]. Qed.

Lemma skip_team_falsy t data : truthy t = false -> skip_team t data = false.
Proof. unfold skip_team. destruct t; [intros ->; reflexivity | reflexivity]. Qed.

Lemma keeps_falsy b t m doc :
  truthy b = false -> truthy t = false -> keeps b t m doc = keeps None None m doc.
Proof.
  intros Hb Ht. unfold keeps. rewrite (skip_bookmaker_falsy b _ Hb), (skip_team_falsy t _ Ht).
  reflexivity.
Qed.

Lemma filter_all {A : Type} (p : A -> bool) (l : list A) :
  (forall x, In x l -> p x = true) -> filter p l = l.
Proof.
  induction l as [| a l IH]; cbn; [reflexivity |].
  intros H. rewrite (H a (or_introl eq_refl)). f_equal. apply IH.
  intros x Hx. apply H. right; exact Hx.
Qed.

(** X1: an output record is a retrieved row: its [id] is the identifier of
    the document (whatever [id] the row itself stored), the odds data are
    those of the row, and its commence time denotes the same instant. *)
Theorem odds_records_copy_rows db now rq h l docs :
  resolve hours_ahead_param (rq_hours_ahead rq) = Some h ->
  resolve limit_param (rq_limit rq) = Some l ->
  db (odds_query now h l) = inr docs ->
  exists out,
    outcome db (api_odds now rq) = Returned out /\
    forall o, In o out ->
      exists d, In d docs /\
        id o = Some (doc_id d) /\
        game_id o = game_id (to_dict d) /\
        sport o = sport (to_dict d) /\
        home_team o = home_team (to_dict d) /\
        away_team o = away_team (to_dict d) /\
        bookmaker o = bookmaker (to_dict d) /\
        team o = team (to_dict d) /\
        point_spread o = point_spread (to_dict d) /\
        odds o = odds (to_dict d) /\
        ev_percentage o = ev_percentage (to_dict d) /\
        is_positive_ev o = is_positive_ev (to_dict d) /\
        instant (commence_time o) = instant (commence_time (to_dict d)).
Proof.
  intros Hh Hl Hdb.
  eexists; split; [apply (outcome_api_odds db now rq h l docs Hh Hl Hdb) |].
  intros o Ho. apply In_firstn_In, in_map_iff in Ho.
  destruct Ho as (d & <- & Hd). apply filter_In in Hd. destruct Hd as [Hd _].
  exists d. split; [exact Hd |]. cbn. rewrite instant_to_iso.
  repeat split; reflexivity.
Qed.

Lemma odds_records_copy_rows_witness :
  exists out,
    outcome (Sample.db [Sample.d1; Sample.d2])
            (api_odds 0 (Sample.request (Some "B") None None None None)) =
    Returned out /\
    forall o, In o out ->
      exists d, In d [Sample.d1; Sample.d2] /\
        id o = Some (doc_id d) /\
        game_id o = game_id (to_dict d) /\
        sport o = sport (to_dict d) /\
        home_team o = home_team (to_dict d) /\
        away_team o = away_team (to_dict d) /\
        bookmaker o = bookmaker (to_dict d) /\
        team o = team (to_dict d) /\
        point_spread o = point_spread (to_dict d) /\
        odds o = odds (to_dict d) /\
        ev_percentage o = ev_percentage (to_dict d) /\
        is_positive_ev o = is_positive_ev (to_dict d) /\
        instant (commence_time o) = instant (commence_time (to_dict d)).
Proof.
  apply (odds_records_copy_rows (Sample.db [Sample.d1; Sample.d2]) 0
           (Sample.request (Some "B") None None None None) 48 100);
    reflexivity.
Defined.

Lemma plain_to_iso v : plain (to_iso v) = true.
Proof. destruct v; reflexivity. Qed.

(** X2: no timestamp object is left in what the handlers return: the three
    time fields of every odds record, and the commence time of every game
    view, are text or null. *)
Theorem timestamps_are_converted :
  (forall db now rq out o,
      outcome db (api_odds now rq) = Returned out -> In o out ->
      plain (commence_time o) = true /\
      plain (last_update o) = true /\
      match ingested_at o with Some v => plain v = true | None => True end) /\
  (forall db now raw views v,
      outcome db (api_games now raw) = Returned views -> In v views ->
      plain (gv_commence_time v) = true).
Proof.
  split.
  - intros db now rq out o. unfold outcome, api_odds.
    destruct (resolve hours_ahead_param (rq_hours_ahead rq)) as [h |]; [| discriminate].
    destruct (resolve limit_param (rq_limit rq)) as [l |]; [| discriminate].
    rewrite run_get_odds. cbn [fst].
    destruct (db (odds_query now h l)) as [e | docs]; [discriminate |].
    rewrite odds_loop_from_empty. intros [= <-] Ho.
    apply In_firstn_In, in_map_iff in Ho. destruct Ho as (d & <- & _). cbn.
    rewrite !plain_to_iso. repeat split.
    destruct (ingested_at (to_dict d)); cbn; [apply plain_to_iso | exact I].
  - intros db now raw views v. unfold outcome, api_games.
    destruct (resolve hours_ahead_param raw) as [h |]; [| discriminate].
    rewrite run_get_upcoming_games. cbn [fst].
    destruct (db (games_query now h)) as [e | docs]; [discriminate |].
    rewrite games_loop_spec. intros [= <-] Hv.
    unfold Dict.values, games_spec, tabulate in Hv. rewrite map_map in Hv.
    apply in_map_iff in Hv. destruct Hv as (seed & <- & _). cbn.
    apply plain_to_iso.
Qed.

Lemma timestamps_are_converted_witness :
  plain (commence_time (render Sample.d1)) = true /\
  plain (last_update (render Sample.d1)) = true /\
  match ingested_at (render Sample.d1) with
  | Some v => plain v = true
  | None => True
  end.
Proof.
  apply (proj1 timestamps_are_converted (Sample.db [Sample.d1]) 0
           (Sample.request None None None None None) [render Sample.d1]);
    [reflexivity | left; reflexivity].
Defined.

(** X3: a request without effective filters (each of bookmaker and team
    omitted or empty, no [min_ev]) whose limit is at least 1 and at least
    the number of retrieved rows returns every row, in store order. *)
Theorem unfiltered_request_returns_all db now rq h l docs :
  resolve hours_ahead_param (rq_hours_ahead rq) = Some h ->
  resolve limit_param (rq_limit rq) = Some l ->
  db (odds_query now h l) = inr docs ->
  truthy (rq_bookmaker rq) = false ->
  truthy (rq_team rq) = false ->
  rq_min_ev rq = None ->
  1 <= l -> Z.of_nat (List.length docs) <= l ->
  outcome db (api_odds now rq) = Returned (map render docs).
Proof.
  intros Hh Hl Hdb Hb Ht Hm Hpos Hlen.
  rewrite (outcome_api_odds db now rq h l docs Hh Hl Hdb). f_equal.
  rewrite filter_all.
  - apply firstn_all2. rewrite length_map. unfold capacity. lia.
  - intros d _. rewrite (keeps_falsy _ _ _ _ Hb Ht), Hm. reflexivity.
Qed.

Lemma unfiltered_request_returns_all_witness :
  outcome (Sample.db [Sample.d1; Sample.d2; Sample.d3])
          (api_odds 0 (Sample.request (Some "") None None None (Some 3))) =
  Returned (map render [Sample.d1; Sample.d2; Sample.d3]).
Proof.
  apply (unfiltered_request_returns_all _ 0 _ 48 3); try reflexivity; cbn; lia.
Defined.

(** X4: an empty bookmaker or team string filters nothing: the request runs
    exactly as the one that omits the parameter. *)
Theorem empty_string_is_no_filter db now b t m h l :
  truthy b = false -> truthy t = false ->
  run db (api_odds now (mkOddsRequest b t m h l)) =
  run db (api_odds now (mkOddsRequest None None m h l)).
Proof.
  intros Hb Ht. unfold api_odds. cbn [rq_bookmaker rq_team rq_min_ev rq_hours_ahead rq_limit].
  destruct (resolve hours_ahead_param h) as [h' |]; [| reflexivity].
  destruct (resolve limit_param l) as [l' |]; [| reflexivity].
  rewrite !run_get_odds.
  destruct (db (odds_query now h' l')) as [e | docs]; [reflexivity |].
  rewrite !odds_loop_from_empty. do 4 f_equal.
  apply filter_ext. intros d. apply keeps_falsy; assumption.
Qed.

Lemma empty_string_is_no_filter_witness :
  run (Sample.db [Sample.d1; Sample.d2])
      (api_odds 0 (mkOddsRequest (Some "") (Some "") None None None)) =
  run (Sample.db [Sample.d1; Sample.d2])
      (api_odds 0 (mkOddsRequest None None None None None)).
Proof.
  apply empty_string_is_no_filter; reflexivity.
Defined.

(** X5: with a limit of zero or less the loop still appends before it tests
    the length: the output is the first passing row alone, or empty when no
    row passes. *)
Theorem nonpositive_limit_returns_first db now rq h l docs :
  resolve hours_ahead_param (rq_hours_ahead rq) = Some h ->
  resolve limit_param (rq_limit rq) = Some l ->
  db (odds_query now h l) = inr docs ->
  l <= 0 ->
  let passing := keeps (rq_bookmaker rq) (rq_team rq) (rq_min_ev rq) in
  outcome db (api_odds now rq) =
  Returned (match filter passing docs with
            | [] => []
            | first :: _ => [render first]
            end).
Proof.
  intros Hh Hl Hdb Hneg passing.
  rewrite (outcome_api_odds db now rq h l docs Hh Hl Hdb). fold passing.
  replace (capacity l) with 1%nat by (unfold capacity; lia).
  destruct (filter passing docs); reflexivity.
Qed.

Lemma nonpositive_limit_returns_first_witness :
  outcome (Sample.db [Sample.d1; Sample.d2; Sample.d3])
          (api_odds 0 (Sample.request (Some "B") None None None (Some (-7)))) =
  Returned [render Sample.d2].
Proof.
  refine (nonpositive_limit_returns_first
            (Sample.db [Sample.d1; Sample.d2; Sample.d3]) 0
            (Sample.request (Some "B") None None None (Some (-7))) 48 (-7)
            [Sample.d1; Sample.d2; Sample.d3] _ _ _ _);
    [reflexivity | reflexivity | reflexivity | lia].
Defined.

(** X6: on the same retrieved rows, a smaller limit returns a prefix of what
    a larger limit returns. *)
Theorem smaller_limit_returns_prefix db now b t m h l1 l2 docs :
  1 <= h <= 168 -> 1 <= l1 -> l1 <= l2 -> l2 <= 500 ->
  db (odds_query now h l1) = inr docs ->
  db (odds_query now h l2) = inr docs ->
  exists out1 out2,
    outcome db (api_odds now (mkOddsRequest b t m (Some h) (Some l1))) = Returned out1 /\
    outcome db (api_odds now (mkOddsRequest b t m (Some h) (Some l2))) = Returned out2 /\
    out1 = firstn (Z.to_nat l1) out2.
Proof.
  intros Hh H1 H12 H2 Hdb1 Hdb2.
  assert (Hrh : resolve hours_ahead_param (Some h) = Some h).
  { cbn. destruct Hh as [Ha Hb]. apply Z.leb_le in Ha, Hb. rewrite Ha, Hb. reflexivity. }
  assert (Hrl : forall l, l <= 500 -> resolve limit_param (Some l) = Some l).
  { intros l Hl. cbn. apply Z.leb_le in Hl. rewrite Hl. reflexivity. }
  do 2 eexists. split; [| split].
  - apply (outcome_api_odds db now _ h l1 docs); [exact Hrh | apply Hrl; lia | exact Hdb1].
  - apply (outcome_api_odds db now _ h l2 docs); [exact Hrh | apply Hrl; lia | exact Hdb2].
  - cbn [rq_bookmaker rq_team rq_min_ev]. rewrite firstn_firstn. f_equal.
    unfold capacity. lia.
Qed.

Lemma smaller_limit_returns_prefix_witness :
  exists out1 out2,
    outcome (Sample.db [Sample.d1; Sample.d2; Sample.d3])
            (api_odds 0 (mkOddsRequest None None None (Some 48) (Some 1))) =
    Returned out1 /\
    outcome (Sample.db [Sample.d1; Sample.d2; Sample.d3])
            (api_odds 0 (mkOddsRequest None None None (Some 48) (Some 2))) =
    Returned out2 /\
    out1 = firstn (Z.to_nat 1) out2.
Proof.
  apply (smaller_limit_returns_prefix _ 0 None None None 48 1 2
           [Sample.d1; Sample.d2; Sample.d3]); try reflexivity; lia.
Defined.

(** X7: when the store returns no row, both handlers return the empty list,
    whatever the filters and the limit. *)
Theorem empty_response_gives_empty_output :
  (forall db now rq h l,
      resolve hours_ahead_param (rq_hours_ahead rq) = Some h ->
      resolve limit_param (rq_limit rq) = Some l ->
      db (odds_query now h l) = inr [] ->
      outcome db (api_odds now rq) = Returned []) /\
  (forall db now raw h,
      resolve hours_ahead_param raw = Some h ->
      db (games_query now h) = inr [] ->
      outcome db (api_games now raw) = Returned []).
Proof.
  split.
  - intros db now rq h l Hh Hl Hdb.
    rewrite (outcome_api_odds db now rq h l [] Hh Hl Hdb). cbn.
    rewrite firstn_nil. reflexivity.
  - intros db now raw h Hh Hdb.
    rewrite (outcome_api_games db now raw h [] Hh Hdb). reflexivity.
Qed.

Lemma empty_response_gives_empty_output_witness :
  outcome (Sample.db [])
          (api_odds 0 (Sample.request (Some "A") None (Some 2%float) None (Some 0))) =
  Returned [] /\
  outcome (Sample.db []) (api_games 0 (Some 24)) = Returned [].
Proof.
  destruct empty_response_gives_empty_output as [Hodds Hgames].
  split.
  - apply (Hodds _ 0 _ 48 0); reflexivity.
  - apply (Hgames _ 0 _ 24); reflexivity.
Defined.

(** X8: whenever the store query of a valid odds request fails, the answer is
    status 500 with the fixed explanation followed by the text of the
    store's exception, after exactly one query. *)
Theorem odds_store_failure_is_reported db now rq h l e :
  resolve hours_ahead_param (rq_hours_ahead rq) = Some h ->
  resolve limit_param (rq_limit rq) = Some l ->
  db (odds_query now h l) = inl e ->
  run db (api_odds now rq) =
  (Responded 500
     (String.append "Query failed. You may need to create a Firestore index. Error: "
                    (str e)),
   [odds_query now h l]).
Proof.
  intros Hh Hl Hdb.
  rewrite (api_odds_valid now rq h l Hh Hl), run_get_odds, Hdb. reflexivity.
Qed.

Lemma odds_store_failure_is_reported_witness :
  run (Sample.broken "deadline exceeded")
      (api_odds 0 (Sample.request (Some "A") None None (Some 4) (Some 20))) =
  (Responded 500
     (String.append "Query failed. You may need to create a Firestore index. Error: "
                    (str (StoreError "deadline exceeded"))),
   [odds_query 0 4 20]).
Proof.
  apply odds_store_failure_is_reported; reflexivity.
Defined.

(** X9: the odds handler answers with an HTTP error only for a failure of
    the store: whenever it raises [HTTPException], the request was valid,
    the store query raised, the status is 500 and the detail is the fixed
    explanation followed by the text of the store's exception. *)
Theorem odds_http_error_only_on_store_failure db now rq status_code detail :
  outcome db (api_odds now rq) = Responded status_code detail ->
  status_code = 500 /\
  exists h l e,
    resolve hours_ahead_param (rq_hours_ahead rq) = Some h /\
    resolve limit_param (rq_limit rq) = Some l /\
    db (odds_query now h l) = inl e /\
    detail =
    String.append "Query failed. You may need to create a Firestore index. Error: "
                  (str e).
Proof.
  unfold outcome, api_odds.
  destruct (resolve hours_ahead_param (rq_hours_ahead rq)) as [h |]; [| discriminate].
  destruct (resolve limit_param (rq_limit rq)) as [l |]; [| discriminate].
  rewrite run_get_odds. cbn [fst].
  destruct (db (odds_query now h l)) as [e | docs] eqn:Hdb; [| discriminate].
  intros [= <- <-]. split; [reflexivity |].
  exists h, l, e. repeat split; [exact Hdb].
Qed.

Lemma odds_http_error_only_on_store_failure_witness :
  500 = 500 /\
  exists h l e,
    resolve hours_ahead_param (Some 6) = Some h /\
    resolve limit_param None = Some l /\
    Sample.broken "down" (odds_query 0 h l) = inl e /\
    String.append query_failed "down" =
    String.append "Query failed. You may need to create a Firestore index. Error: "
                  (str e).
Proof.
  apply (odds_http_error_only_on_store_failure (Sample.broken "down") 0
           (Sample.request None None None (Some 6) None)).
  reflexivity.
Defined.

(** ** The aggregation *)

(** X10: the games handler has no handler for a failure of the store: for
    every valid request, when the store query raises, that exception leaves
    [get_upcoming_games] as it is, after exactly one query; and the handler
    never raises an [HTTPException] of its own. *)
Theorem games_store_failure_propagates db now raw h :
  resolve hours_ahead_param raw = Some h ->
  (forall e, db (games_query now h) = inl e ->
             run db (api_games now raw) = (Raised e, [games_query now h])) /\
  (forall status_code detail,
      outcome db (api_games now raw) <> Responded status_code detail).
Proof.
  intros Hh. unfold outcome, api_games. rewrite Hh, run_get_upcoming_games.
  split.
  - intros e Hdb. rewrite Hdb. reflexivity.
  - intros s d. cbn [fst].
    destruct (db (games_query now h)) as [e | docs]; [discriminate |].
    destruct (games_loop docs Dict.empty); discriminate.
Qed.

Lemma games_store_failure_propagates_witness :
  (forall e, Sample.broken "unavailable" (games_query 0 12) = inl e ->
             run (Sample.broken "unavailable") (api_games 0 (Some 12)) =
             (Raised e, [games_query 0 12])) /\
  (forall status_code detail,
      outcome (Sample.broken "unavailable") (api_games 0 (Some 12)) <>
      Responded status_code detail).
Proof.
  apply (games_store_failure_propagates (Sample.broken "unavailable") 0 (Some 12) 12).
  reflexivity.
Defined.

(** X11: [hours_ahead] of the games endpoint is validated like that of the
    odds endpoint: a value outside [1, 168] is rejected before any store
    access, a value inside reaches the handler, and an omitted one is 48. *)
Theorem games_parameter_validation :
  (forall db now h, h < 1 \/ 168 < h ->
                    run db (api_games now (Some h)) = (Rejected, [])) /\
  (forall now h, 1 <= h <= 168 ->
                 api_games now (Some h) = get_upcoming_games now h) /\
  (forall now, api_games now None = get_upcoming_games now 48).
Proof.
  split; [| split].
  - intros db now h Hout. unfold api_games; cbn.
    destruct (1 <=? h) eqn:E1, (h <=? 168) eqn:E2; cbn; try reflexivity.
    apply Z.leb_le in E1, E2. lia.
  - intros now h [H1 H2]. unfold api_games; cbn.
    apply Z.leb_le in H1, H2. rewrite H1, H2. reflexivity.
  - reflexivity.
Qed.

Lemma games_parameter_validation_witness :
  run (Sample.db [Sample.d1]) (api_games 0 (Some 0)) = (Rejected, []) /\
  api_games 0 (Some 168) = get_upcoming_games 0 168.
Proof.
  destruct games_parameter_validation as (Hbad & Hok & _).
  split; [apply Hbad; lia | apply Hok; lia].
Defined.

(** *** Counting rows by key *)

Section Partition.

Context {A : Type} (key : A -> string).

Lemma list_sum_map_add {B : Type} (f g : B -> nat) (l : list B) :
  list_sum (map (fun x => f x + g x)%nat l) =
  (list_sum (map f l) + list_sum (map g l))%nat.
Proof.
  unfold list_sum. induction l as [| x l IH]; cbn; [reflexivity | rewrite IH; lia].
Qed.

Lemma indicator_sum (k : string) (ks : list string) :
  NoDup ks ->
  list_sum (map (fun k' => if (k =? k')%string then 1%nat else 0%nat) ks) =
  if seen (fun s : string => s) k ks then 1%nat else 0%nat.
Proof.
  unfold seen, list_sum. induction ks as [| a ks IH]; cbn; [reflexivity |].
  intros Hnd. apply NoDup_cons_iff in Hnd. destruct Hnd as [Hnotin Hnd].
  rewrite (IH Hnd), (String.eqb_sym a k).
  destruct (String.eqb_spec k a) as [E | E]; cbn; [| reflexivity].
  subst a. destruct (existsb (fun y => (y =? k)%string) ks) eqn:Hex; [| reflexivity].
  apply existsb_exists in Hex. destruct Hex as (y & Hy & Hyk).
  apply String.eqb_eq in Hyk. subst y. contradiction.
Qed.

(** The groups of the distinct keys account for every element once. *)
Lemma length_by_key (l : list A) :
  list_sum (map (fun k => List.length (filter (fun y => (key y =? k)%string) l))
                (first_seen (map key l))) = List.length l.
Proof.
  induction l as [| x l IH] using rev_ind; [reflexivity |].
  rewrite map_app, length_app. cbn [map List.length]. unfold first_seen.
  rewrite (first_by_snoc (fun s : string => s)).
  fold (first_seen (map key l)).
  set (ks := first_seen (map key l)) in *.
  assert (Hcount : forall k,
             List.length (filter (fun y => (key y =? k)%string) (l ++ [x])) =
             (List.length (filter (fun y => (key y =? k)%string) l) +
              (if (key x =? k)%string then 1 else 0))%nat).
  { intros k. rewrite filter_snoc. destruct (key x =? k)%string.
    - rewrite length_app. reflexivity.
    - lia. }
  assert (Hks : NoDup ks).
  { unfold ks. rewrite <- (map_id (first_seen (map key l))).
    apply (first_by_NoDup (fun s : string => s)). }
  assert (Hsum : list_sum
                   (map (fun k => List.length
                                    (filter (fun y => (key y =? k)%string) (l ++ [x])))
                        ks) =
                 (List.length l +
                  (if seen (fun s : string => s) (key x) ks then 1 else 0))%nat).
  { rewrite (map_ext _ _ Hcount).
    rewrite (list_sum_map_add
               (fun k => List.length (filter (fun y => (key y =? k)%string) l))
               (fun k => if (key x =? k)%string then 1%nat else 0%nat) ks).
    fold ks in IH. rewrite IH, (indicator_sum (key x) ks Hks). reflexivity. }
  assert (Hseen : seen (fun s : string => s) (key x) (map key l) =
                  seen (fun s : string => s) (key x) ks).
  { symmetry. apply (seen_first_by (fun s : string => s)). }
  assert (Hl : seen key (key x) l = seen (fun s : string => s) (key x) ks).
  { rewrite <- Hseen. symmetry. apply seen_map. }
  rewrite Hseen.
  destruct (seen (fun s : string => s) (key x) ks).
  - exact Hsum.
  - rewrite map_app, list_sum_app, Hsum. cbn [map list_sum].
    rewrite Hcount, String.eqb_refl.
    rewrite (seen_filter_nil key (key x) l Hl). cbn. lia.
Qed.

End Partition.

Lemma lines_in_view_of (docs : list Document) (seed : Document) :
  lines_in (view_of docs seed) =
  List.length (filter (same_game (doc_game seed)) docs).
Proof.
  unfold lines_in, view_of. cbn [gv_bookmakers with_bookmakers].
  unfold bookmakers_of, tabulate. rewrite map_map. cbn [snd].
  rewrite <- (length_by_key doc_bookmaker (filter (same_game (doc_game seed)) docs)).
  f_equal. apply map_ext. intros b. apply length_map.
Qed.

(** X12: every retrieved row contributes exactly one line: the lines of all
    bookmakers of all returned games number as many as the rows. *)
Theorem games_keep_every_row db now raw h docs :
  resolve hours_ahead_param raw = Some h ->
  db (games_query now h) = inr docs ->
  exists views,
    outcome db (api_games now raw) = Returned views /\
    list_sum (map lines_in views) = List.length docs.
Proof.
  intros Hh Hdb. eexists. split; [apply (outcome_api_games db now raw h docs Hh Hdb) |].
  rewrite map_map. rewrite (map_ext _ _ (lines_in_view_of docs)).
  rewrite <- (length_by_key doc_game docs), <- (map_first_by doc_game docs), map_map.
  reflexivity.
Qed.

Lemma games_keep_every_row_witness :
  exists views,
    outcome (Sample.db [Sample.d1; Sample.d2; Sample.d3; Sample.d4])
            (api_games 0 None) = Returned views /\
    list_sum (map lines_in views) = 4%nat.
Proof.
  apply (games_keep_every_row
           (Sample.db [Sample.d1; Sample.d2; Sample.d3; Sample.d4]) 0 None 48
           [Sample.d1; Sample.d2; Sample.d3; Sample.d4]); reflexivity.
Defined.

Lemma get_tabulate_id {V : Type} (f : string -> V) (ks : list string) (k : string) :
  In k ks -> Dict.get k (tabulate (fun s : string => s) f ks) = Some (f k).
Proof.
  induction ks as [| a ks IH]; cbn; [tauto |].
  destruct (String.eqb_spec a k) as [-> | E]; [reflexivity |].
  intros [Hak | Hin]; [contradiction | apply IH, Hin].
Qed.

Lemma in_first_seen (l : list string) (k : string) : In k (first_seen l) <-> In k l.
Proof.
  pose proof (first_by_keys (fun s : string => s) l k) as H.
  rewrite !map_id in H. exact H.
Qed.

(** X13: the line of every retrieved row can be looked up: the output has a
    view for the row's game, that view has the row's bookmaker as a key, and
    the list under that key contains the row's line. *)
Theorem every_row_is_found db now raw h docs :
  resolve hours_ahead_param raw = Some h ->
  db (games_query now h) = inr docs ->
  exists views,
    outcome db (api_games now raw) = Returned views /\
    forall d, In d docs ->
      exists v entries,
        In v views /\
        gv_game_id v = game_id (to_dict d) /\
        Dict.get (bookmaker (to_dict d)) (gv_bookmakers v) = Some entries /\
        In (line_of (to_dict d)) entries.
Proof.
  intros Hh Hdb. eexists. split; [apply (outcome_api_games db now raw h docs Hh Hdb) |].
  intros d Hd.
  assert (Hkey : In (doc_game d) (map doc_game (first_by doc_game docs))).
  { apply first_by_keys, in_map, Hd. }
  apply in_map_iff in Hkey. destruct Hkey as (seed & Hgame & Hseed).
  set (rows := filter (same_game (doc_game seed)) docs).
  assert (Hrow : In d rows).
  { apply filter_In. split; [exact Hd |]. unfold same_game. rewrite Hgame.
    apply String.eqb_refl. }
  exists (view_of docs seed),
         (map doc_line (filter (same_bookmaker (doc_bookmaker d)) rows)).
  split; [apply in_map, Hseed |].
  split; [exact Hgame |].
  split.
  - cbn [view_of gv_bookmakers with_bookmakers]. fold rows. unfold bookmakers_of.
    apply (get_tabulate_id
             (fun b => map doc_line (filter (same_bookmaker b) rows))).
    apply in_first_seen, in_map, Hrow.
  - apply (in_map doc_line). apply filter_In. split; [exact Hrow |].
    unfold same_bookmaker. apply String.eqb_refl.
Qed.

Lemma every_row_is_found_witness :
  exists views,
    outcome (Sample.db [Sample.d1; Sample.d2; Sample.d3; Sample.d4])
            (api_games 0 None) = Returned views /\
    forall d, In d [Sample.d1; Sample.d2; Sample.d3; Sample.d4] ->
      exists v entries,
        In v views /\
        gv_game_id v = game_id (to_dict d) /\
        Dict.get (bookmaker (to_dict d)) (gv_bookmakers v) = Some entries /\
        In (line_of (to_dict d)) entries.
Proof.
  apply (every_row_is_found
           (Sample.db [Sample.d1; Sample.d2; Sample.d3; Sample.d4]) 0 None 48);
    reflexivity.
Defined.

(** X14: the output has no empty part: every returned game has at least one
    bookmaker, and every bookmaker of a game has at least one line. *)
Theorem games_have_no_empty_part db now raw views v :
  outcome db (api_games now raw) = Returned views ->
  In v views ->
  gv_bookmakers v <> [] /\
  forall b entries, In (b, entries) (gv_bookmakers v) -> entries <> [].
Proof.
  unfold outcome, api_games.
  destruct (resolve hours_ahead_param raw) as [h |]; [| discriminate].
  rewrite run_get_upcoming_games. cbn [fst].
  destruct (db (games_query now h)) as [e | docs]; [discriminate |].
  rewrite games_loop_spec. intros [= <-] Hv.
  unfold Dict.values, games_spec, tabulate in Hv. rewrite map_map in Hv.
  apply in_map_iff in Hv. destruct Hv as (seed & <- & Hseed). cbn [snd].
  cbn [view_of gv_bookmakers with_bookmakers].
  set (rows := filter (same_game (doc_game seed)) docs).
  assert (Hentries : forall b entries,
             In (b, entries) (bookmakers_of rows) -> entries <> []).
  { intros b entries Hin. unfold bookmakers_of, tabulate in Hin.
    apply in_map_iff in Hin. destruct Hin as (b' & [= <- <-] & Hb).
    apply in_first_seen, in_map_iff in Hb. destruct Hb as (d & Hbd & Hd).
    assert (Hline : In (doc_line d) (map doc_line (filter (same_bookmaker b') rows))).
    { apply in_map, filter_In. split; [exact Hd |]. unfold same_bookmaker.
      apply String.eqb_eq, Hbd. }
    intros Hnil. rewrite Hnil in Hline. exact Hline. }
  split; [| exact Hentries].
  destruct (first_by_heads doc_game docs seed Hseed) as [rest Hrest].
  fold (same_game (doc_game seed)) in Hrest. fold rows in Hrest.
  rewrite Hrest. unfold bookmakers_of. cbn. discriminate.
Qed.

Lemma games_have_no_empty_part_witness :
  gv_bookmakers (view_of [Sample.d3] Sample.d3) <> [] /\
  forall b entries,
    In (b, entries) (gv_bookmakers (view_of [Sample.d3] Sample.d3)) -> entries <> [].
Proof.
  apply (games_have_no_empty_part (Sample.db [Sample.d3]) 0 None
           [view_of [Sample.d3] Sample.d3]);
    [reflexivity | left; reflexivity].
Defined.

Lemma first_by_app_prefix {A : Type} (key : A -> string) (l1 l2 : list A) :
  exists more, first_by key (l1 ++ l2) = first_by key l1 ++ more.
Proof.
  induction l2 as [| x l2 IH] using rev_ind.
  - exists []. rewrite !app_nil_r. reflexivity.
  - destruct IH as [more IH]. rewrite app_assoc, first_by_snoc, IH.
    destruct (seen key (key x) (l1 ++ l2)).
    + exists more. reflexivity.
    + exists (more ++ [x]). rewrite app_assoc. reflexivity.
Qed.

(** X15: retrieving more rows only extends the result.  If one response
    continues another, the games of the shorter one come first, in the same
    order, in the longer one; each keeps its teams and commence time; and
    under each of its bookmakers the earlier lines come first. *)
Theorem longer_response_extends_games db1 db2 now raw h docs more_docs :
  resolve hours_ahead_param raw = Some h ->
  db1 (games_query now h) = inr docs ->
  db2 (games_query now h) = inr (docs ++ more_docs) ->
  exists views1 views2,
    outcome db1 (api_games now raw) = Returned views1 /\
    outcome db2 (api_games now raw) = Returned views2 /\
    (exists new_ids, map gv_game_id views2 = map gv_game_id views1 ++ new_ids) /\
    forall v1, In v1 views1 ->
      exists v2,
        In v2 views2 /\
        gv_game_id v2 = gv_game_id v1 /\
        gv_home_team v2 = gv_home_team v1 /\
        gv_away_team v2 = gv_away_team v1 /\
        gv_commence_time v2 = gv_commence_time v1 /\
        forall b entries,
          In (b, entries) (gv_bookmakers v1) ->
          exists more_entries,
            Dict.get b (gv_bookmakers v2) = Some (entries ++ more_entries).
Proof.
  intros Hh Hdb1 Hdb2. do 2 eexists.
  split; [apply (outcome_api_games db1 now raw h docs Hh Hdb1) |].
  split; [apply (outcome_api_games db2 now raw h _ Hh Hdb2) |].
  destruct (first_by_app_prefix doc_game docs more_docs) as [more Hmore].
  split.
  - exists (map doc_game more).
    rewrite !map_map, Hmore, map_app. reflexivity.
  - intros v1 Hv1. apply in_map_iff in Hv1. destruct Hv1 as (seed & <- & Hseed).
    exists (view_of (docs ++ more_docs) seed).
    split; [apply in_map; rewrite Hmore; apply in_or_app; left; exact Hseed |].
    repeat (split; [reflexivity |]).
    intros b entries Hin.
    cbn [view_of gv_bookmakers with_bookmakers] in *.
    rewrite filter_app.
    set (rows := filter (same_game (doc_game seed)) docs) in *.
    set (rows' := filter (same_game (doc_game seed)) more_docs).
    unfold bookmakers_of, tabulate in Hin.
    apply in_map_iff in Hin. destruct Hin as (b' & [= <- <-] & Hb).
    exists (map doc_line (filter (same_bookmaker b') rows')).
    rewrite <- map_app, <- filter_app. unfold bookmakers_of.
    apply (get_tabulate_id
             (fun b => map doc_line (filter (same_bookmaker b) (rows ++ rows')))).
    apply in_first_seen. rewrite map_app. apply in_or_app. left.
    apply in_first_seen, Hb.
Qed.

Lemma longer_response_extends_games_witness :
  exists views1 views2,
    outcome (Sample.db [Sample.d1; Sample.d3]) (api_games 0 None) = Returned views1 /\
    outcome (Sample.db [Sample.d1; Sample.d3; Sample.d2; Sample.d4])
            (api_games 0 None) = Returned views2 /\
    (exists new_ids, map gv_game_id views2 = map gv_game_id views1 ++ new_ids) /\
    forall v1, In v1 views1 ->
      exists v2,
        In v2 views2 /\
        gv_game_id v2 = gv_game_id v1 /\
        gv_home_team v2 = gv_home_team v1 /\
        gv_away_team v2 = gv_away_team v1 /\
        gv_commence_time v2 = gv_commence_time v1 /\
        forall b entries,
          In (b, entries) (gv_bookmakers v1) ->
          exists more_entries,
            Dict.get b (gv_bookmakers v2) = Some (entries ++ more_entries).
Proof.
  apply (longer_response_extends_games
           (Sample.db [Sample.d1; Sample.d3])
           (Sample.db [Sample.d1; Sample.d3; Sample.d2; Sample.d4])
           0 None 48 [Sample.d1; Sample.d3] [Sample.d2; Sample.d4]);
    reflexivity.
Defined.

Lemma NoDup_map_firstn {A B : Type} (f : A -> B) (n : nat) (l : list A) :
  NoDup (map f l) -> NoDup (map f (firstn n l)).
Proof.
  revert l. induction n as [| n IH]; intros [| a l]; cbn; try constructor.
  - apply NoDup_cons_iff in H. destruct H as [Hnotin _].
    intros Hin. apply Hnotin. apply in_map_iff in Hin. destruct Hin as (y & Hy & Hin).
    apply in_map_iff. exists y. split; [exact Hy | apply (In_firstn_In n), Hin].
  - apply IH. apply NoDup_cons_iff in H. tauto.
Qed.

Lemma NoDup_map_Some {A : Type} (l : list A) : NoDup l -> NoDup (map Some l).
Proof.
  induction 1 as [| a l Hnotin Hnd IH]; cbn; constructor; [| exact IH].
  intros Hin. apply in_map_iff in Hin. destruct Hin as (y & [= ->] & Hy). contradiction.
Qed.

(** X21: the odds output repeats no document: when the retrieved rows have
    pairwise distinct identifiers, so have the returned records. *)
Theorem odds_output_ids_are_distinct db now rq h l docs :
  resolve hours_ahead_param (rq_hours_ahead rq) = Some h ->
  resolve limit_param (rq_limit rq) = Some l ->
  db (odds_query now h l) = inr docs ->
  NoDup (map doc_id docs) ->
  exists out,
    outcome db (api_odds now rq) = Returned out /\
    NoDup (map id out).
Proof.
  intros Hh Hl Hdb Hnd.
  eexists; split; [apply (outcome_api_odds db now rq h l docs Hh Hl Hdb) |].
  rewrite firstn_map, map_map. cbn [render convert_timestamps set_id id].
  rewrite <- (map_map doc_id Some).
  apply NoDup_map_Some, NoDup_map_firstn, (NoDup_map_filter doc_id), Hnd.
Qed.

Lemma odds_output_ids_are_distinct_witness :
  exists out,
    outcome (Sample.db [Sample.d1; Sample.d2; Sample.d3])
            (api_odds 0 (Sample.request None (Some "Home") None None None)) =
    Returned out /\
    NoDup (map id out).
Proof.
  apply (odds_output_ids_are_distinct
           (Sample.db [Sample.d1; Sample.d2; Sample.d3]) 0
           (Sample.request None (Some "Home") None None None) 48 100
           [Sample.d1; Sample.d2; Sample.d3]); try reflexivity.
  repeat constructor; cbn; intuition discriminate.
Defined.

(** * Properties of the helpers of [utils.py] *)

Lemma timedelta_minutes_in_range (m : Z) :
  -1439999998560 <= m <= 1439999999999 ->
  timedelta_minutes m = inr (m * 60 * 1000000).
Proof.
  intros Hm. unfold timedelta_minutes. cbn zeta.
  assert (H1 : (timedelta_min <=? m * 60 * 1000000) = true)
    by (apply Z.leb_le; unfold timedelta_min, day_us; lia).
  assert (H2 : (m * 60 * 1000000 <=? timedelta_max) = true)
    by (apply Z.leb_le; unfold timedelta_max, day_us; lia).
  rewrite H1, H2. reflexivity.
Qed.

Lemma timedelta_minutes_overflow (m : Z) :
  m < -1439999998560 \/ 1439999999999 < m ->
  timedelta_minutes m = inl OverflowError.
Proof.
  intros Hm. unfold timedelta_minutes. cbn zeta.
  destruct Hm as [Hm | Hm].
  - assert (H1 : (timedelta_min <=? m * 60 * 1000000) = false)
      by (apply Z.leb_gt; unfold timedelta_min, day_us; lia).
    rewrite H1. reflexivity.
  - assert (H2 : (m * 60 * 1000000 <=? timedelta_max) = false)
      by (apply Z.leb_gt; unfold timedelta_max, day_us; lia).
    rewrite H2, andb_false_r. reflexivity.
Qed.

Lemma timedelta_minutes_cases (m : Z) :
  (-1439999998560 <= m <= 1439999999999 /\
   timedelta_minutes m = inr (m * 60 * 1000000)) \/
  ((m < -1439999998560 \/ 1439999999999 < m) /\
   timedelta_minutes m = inl OverflowError).
Proof.
  destruct (Z_le_gt_dec (-1439999998560) m) as [Hlo | Hlo];
    [destruct (Z_le_gt_dec m 1439999999999) as [Hhi | Hhi] |].
  - left. split; [lia | apply timedelta_minutes_in_range; lia].
  - right. split; [lia | apply timedelta_minutes_overflow; lia].
  - right. split; [lia | apply timedelta_minutes_overflow; lia].
Qed.

(** X16: when the helpers fail.  [is_odds_fresh] raises [TypeError] exactly
    on an aware timestamp, and [OverflowError] exactly on a naive timestamp
    with a window outside the range of [timedelta]; a missing timestamp is
    answered [False] before anything can raise.  [format_time_until] fails
    exactly on an aware commence time, with [TypeError]. *)
Theorem helpers_error_behaviour :
  (forall now m, is_odds_fresh now None m = inr false) /\
  (forall now last_update m,
      is_odds_fresh now last_update (Some m) = inl TypeError <->
      exists t, last_update = Some (Aware t)) /\
  (forall now last_update m,
      is_odds_fresh now last_update (Some m) = inl OverflowError <->
      (exists t, last_update = Some (Naive t)) /\
      (m < -1439999998560 \/ 1439999999999 < m)) /\
  (forall now commence e,
      format_time_until now commence = inl e <->
      e = TypeError /\ exists t, commence = Aware t).
Proof.
  split; [reflexivity | split; [| split]].
  - intros now [[t | t] |] m; cbn.
    + destruct (timedelta_minutes_cases m) as [[_ ->] | [_ ->]];
        (split; [discriminate | intros (t' & [=])]).
    + split; [intros _; exists t; reflexivity | reflexivity].
    + split; [discriminate | intros (t' & [=])].
  - intros now [[t | t] |] m; cbn.
    + destruct (timedelta_minutes_cases m) as [[Hm ->] | [Hm ->]].
      * split; [discriminate | intros [_ H]; lia].
      * split; [intros _; split; [exists t; reflexivity | exact Hm] | reflexivity].
    + split; [discriminate | intros [(t' & [=]) _]].
    + split; [discriminate | intros [(t' & [=]) _]].
  - intros now [t | t] e; unfold format_time_until; cbn [datetime_sub].
    + destruct (days (t - now) >? 0); [| destruct (seconds (t - now) >=? 3600)];
        (split; [discriminate | intros [_ (t' & [=])]]).
    + split.
      * intros [= <-]. split; [reflexivity | exists t; reflexivity].
      * intros [-> _]. reflexivity.
Qed.

Lemma helpers_error_behaviour_witness :
  is_odds_fresh 0 (Some (Naive 5)) (Some 1440000000000) = inl OverflowError /\
  is_odds_fresh 0 (Some (Aware 5)) (Some 30) = inl TypeError.
Proof.
  destruct helpers_error_behaviour as (_ & Htype & Hover & _).
  split.
  - apply Hover. split; [exists 5; reflexivity | right; lia].
  - apply Htype. exists 5. reflexivity.
Defined.

Lemma is_odds_fresh_naive now t m :
  -1439999998560 <= m <= 1439999999999 ->
  is_odds_fresh now (Some (Naive t)) (Some m) = inr (now - t <? m * 60 * 1000000).
Proof.
  intros Hm. unfold is_odds_fresh. cbn [datetime_sub].
  rewrite (timedelta_minutes_in_range m Hm). reflexivity.
Qed.

(** X17: the comparison with the window is strict: an update that is exactly
    [max_age_minutes] old is stale, one that is a microsecond younger is
    fresh; with the default window that is 30 minutes. *)
Theorem freshness_boundary :
  (forall t m,
      -1439999998560 <= m <= 1439999999999 ->
      is_odds_fresh (t + m * 60000000) (Some (Naive t)) (Some m) = inr false /\
      is_odds_fresh (t + m * 60000000 - 1) (Some (Naive t)) (Some m) = inr true) /\
  (forall t,
      is_odds_fresh (t + 1800000000) (Some (Naive t)) None = inr false /\
      is_odds_fresh (t + 1799999999) (Some (Naive t)) None = inr true).
Proof.
  assert (H : forall t m,
             -1439999998560 <= m <= 1439999999999 ->
             is_odds_fresh (t + m * 60000000) (Some (Naive t)) (Some m) = inr false /\
             is_odds_fresh (t + m * 60000000 - 1) (Some (Naive t)) (Some m) = inr true).
  { intros t m Hm. rewrite !is_odds_fresh_naive by exact Hm. split; f_equal.
    - apply Z.ltb_ge. lia.
    - apply Z.ltb_lt. lia. }
  split; [exact H |].
  intros t. destruct (H t 30) as [H1 H2]; [lia |].
  replace (t + 1799999999) with (t + 30 * 60000000 - 1) by lia.
  split; [exact H1 | exact H2].
Qed.

Lemma freshness_boundary_witness :
  is_odds_fresh (100 + 5 * 60000000) (Some (Naive 100)) (Some 5) = inr false /\
  is_odds_fresh (100 + 5 * 60000000 - 1) (Some (Naive 100)) (Some 5) = inr true.
Proof.
  apply (proj1 freshness_boundary 100 5). lia.
Defined.

(** X18: freshness is monotone: an update that is fresh stays fresh when it
    is asked about at an earlier time or with a wider window. *)
Theorem freshness_is_monotone now now' t m m' :
  is_odds_fresh now (Some (Naive t)) (Some m) = inr true ->
  now' <= now -> m <= m' -> m' <= 1439999999999 ->
  is_odds_fresh now' (Some (Naive t)) (Some m') = inr true.
Proof.
  intros Hfresh Hnow Hm Hm'.
  destruct (Z_le_gt_dec (-1439999998560) m) as [Hlo | Hlo].
  - rewrite is_odds_fresh_naive in Hfresh by lia.
    rewrite is_odds_fresh_naive by lia.
    injection Hfresh as Hfresh. apply Z.ltb_lt in Hfresh.
    f_equal. apply Z.ltb_lt. lia.
  - unfold is_odds_fresh in Hfresh. cbn [datetime_sub] in Hfresh.
    rewrite timedelta_minutes_overflow in Hfresh by lia. discriminate.
Qed.

Lemma freshness_is_monotone_witness :
  is_odds_fresh 0 (Some (Naive 100)) (Some 45) = inr true.
Proof.
  apply (freshness_is_monotone 600000000 0 100 30 45);
    [reflexivity | lia | lia | lia].
Defined.

(** X19: what [format_time_until] prints for a game that has not started.
    One day or more ahead: whole days and the whole hours of the rest.  From
    an hour to a day: whole hours and the whole minutes of the rest.  Under
    an hour: whole minutes.  Each number is the floor; what is left over is
    dropped. *)
Theorem format_time_until_shape now t :
  let delta := t - now in
  (86400000000 <= delta ->
   exists d hh,
     format_time_until now (Naive t) =
     inr (String.append (str_int d)
            (String.append "d " (String.append (str_int hh) "h"))) /\
     1 <= d /\ 0 <= hh < 24 /\
     d * 86400000000 + hh * 3600000000 <= delta <
     d * 86400000000 + (hh + 1) * 3600000000) /\
  (3600000000 <= delta < 86400000000 ->
   exists hh mm,
     format_time_until now (Naive t) =
     inr (String.append (str_int hh)
            (String.append "h " (String.append (str_int mm) "m"))) /\
     1 <= hh < 24 /\ 0 <= mm < 60 /\
     hh * 3600000000 + mm * 60000000 <= delta <
     hh * 3600000000 + (mm + 1) * 60000000) /\
  (0 <= delta < 3600000000 ->
   exists mm,
     format_time_until now (Naive t) = inr (String.append (str_int mm) "m") /\
     0 <= mm < 60 /\
     mm * 60000000 <= delta < (mm + 1) * 60000000).
Proof.
  intros delta. unfold format_time_until. cbn [datetime_sub]. fold delta.
  unfold days, seconds, day_us. change (86400 * 1000000) with 86400000000.
  split; [| split]; intros Hd.
  - assert (Hdays : (delta / 86400000000 >? 0) = true).
    { apply Z.gtb_lt. Z.div_mod_to_equations. lia. }
    rewrite Hdays.
    exists (delta / 86400000000), (delta mod 86400000000 / 1000000 / 3600).
    split; [reflexivity |]. Z.div_mod_to_equations. lia.
  - assert (Hdays : (delta / 86400000000 >? 0) = false).
    { rewrite Z.gtb_ltb. apply Z.ltb_ge. Z.div_mod_to_equations. lia. }
    assert (Hsec : (delta mod 86400000000 / 1000000 >=? 3600) = true).
    { apply Z.geb_le. Z.div_mod_to_equations. lia. }
    rewrite Hdays, Hsec.
    exists (delta mod 86400000000 / 1000000 / 3600),
           ((delta mod 86400000000 / 1000000) mod 3600 / 60).
    split; [reflexivity |]. Z.div_mod_to_equations. lia.
  - assert (Hdays : (delta / 86400000000 >? 0) = false).
    { rewrite Z.gtb_ltb. apply Z.ltb_ge. Z.div_mod_to_equations. lia. }
    assert (Hsec : (delta mod 86400000000 / 1000000 >=? 3600) = false).
    { rewrite Z.geb_leb. apply Z.leb_gt. Z.div_mod_to_equations. lia. }
    rewrite Hdays, Hsec.
    exists (delta mod 86400000000 / 1000000 / 60).
    split; [reflexivity |]. Z.div_mod_to_equations. lia.
Qed.

Lemma format_time_until_shape_witness :
  exists hh mm,
    format_time_until 0 (Naive 5430000000) =
    inr (String.append (str_int hh)
           (String.append "h " (String.append (str_int mm) "m"))) /\
    1 <= hh < 24 /\ 0 <= mm < 60 /\
    hh * 3600000000 + mm * 60000000 <= 5430000000 - 0 <
    hh * 3600000000 + (mm + 1) * 60000000.
Proof.
  apply (proj1 (proj2 (format_time_until_shape 0 5430000000))). lia.
Defined.

(** X20: a game that has already started is not reported as started: the
    negative difference is normalized to a negative day count and a time of
    day, and only the time of day is printed, so the answer is the one for
    the same game moved whole days later into the next 24 hours. *)
Theorem started_game_is_shown_as_upcoming now t k :
  t < now ->
  0 <= t + k * 86400000000 - now < 86400000000 ->
  format_time_until now (Naive t) =
  format_time_until now (Naive (t + k * 86400000000)).
Proof.
  intros Hpast Hwrap. unfold format_time_until. cbn [datetime_sub].
  assert (Hsec : seconds (t + k * 86400000000 - now) = seconds (t - now)).
  { unfold seconds, day_us. change (86400 * 1000000) with 86400000000.
    replace (t + k * 86400000000 - now) with (t - now + k * 86400000000) by lia.
    rewrite Z.mod_add by lia. reflexivity. }
  assert (Hd1 : (days (t - now) >? 0) = false).
  { rewrite Z.gtb_ltb. apply Z.ltb_ge. unfold days, day_us.
    change (86400 * 1000000) with 86400000000. Z.div_mod_to_equations. lia. }
  assert (Hd2 : (days (t + k * 86400000000 - now) >? 0) = false).
  { rewrite Z.gtb_ltb. apply Z.ltb_ge. unfold days, day_us.
    change (86400 * 1000000) with 86400000000. Z.div_mod_to_equations. lia. }
  rewrite Hd1, Hd2, Hsec. reflexivity.
Qed.

Lemma started_game_is_shown_as_upcoming_witness :
  format_time_until 0 (Naive (-60000000)) =
  format_time_until 0 (Naive (-60000000 + 1 * 86400000000)) /\
  format_time_until 0 (Naive (-60000000)) = inr "23h 59m".
Proof.
  split.
  - apply started_game_is_shown_as_upcoming; lia.
  - reflexivity.
Defined.
